(** * yellowbrick.regressor.residuals

    A shallow embedding of [yellowbrick/regressor/residuals.py]: the two
    regressor visualizers [PredictionError] and [ResidualsPlot], and the
    quick methods [prediction_error] and [residuals_plot].

    The visualizers are thin adapters over three collaborators: a
    scikit-learn estimator, a matplotlib axes and the best-fit helper.
    Python objects mutated in place are modelled by explicit state passing:
    every method takes [self] and returns the updated visualizer.  A raised
    exception is the [Raise] outcome of the [result] monad; the state at the
    point of the exception is not tracked.

    Numbers (float64 entries of the arrays, the opacity 0.5) are idealised
    as exact rationals. *)

From Stdlib Require Import QArith Qminmax Lqa.
From stdpp Require Import gmap strings list fin_maps.

Local Open Scope string_scope.
Local Open Scope Q_scope.
Local Open Scope list_scope.

(** ** Python values, exceptions *)

(** The values that travel through keyword arguments and colour tables. *)
Inductive pyval : Type :=
  | PyNone
  | PyStr (s : string)
  | PyNum (q : Q)
  | PyBool (b : bool).

Inductive exn : Type :=
  | YellowbrickTypeError
  | ValueError
  | KeyError (k : string)
  | EstimatorError (msg : string).

Inductive result (A : Type) : Type :=
  | Ok (a : A)
  | Raise (e : exn).
Arguments Ok {A} a.
Arguments Raise {A} e.

#[export] Instance result_ret : MRet result := fun A a => Ok a.
#[export] Instance result_bind : MBind result :=
  fun A B f m => match m with Ok a => f a | Raise e => Raise e end.

#[export] Instance result_fmap : FMap result :=
  fun A B f m => match m with Ok a => Ok (f a) | Raise e => Raise e end.

Definition is_ok {A} (r : result A) : bool :=
  match r with Ok _ => true | Raise _ => false end.

(** ** Dictionaries *)

(** [d.pop(k, default)]: the value under [k] (or the default), and the
    dictionary without [k]. *)
Definition dict_pop (k : string) (default : pyval) (d : gmap string pyval)
  : pyval * gmap string pyval :=
  (match d !! k with Some v => v | None => default end, delete k d).

(** [d[k]]: raises [KeyError] on a missing key. *)
Definition dict_get (k : string) (d : gmap string pyval) : result pyval :=
  match d !! k with Some v => Ok v | None => Raise (KeyError k) end.

(** ** One-dimensional numpy arrays *)

Abbreviation Vector := (list Q).
Abbreviation Matrix := (list (list Q)).

(** [a - b] on one-dimensional arrays: element-wise on equal lengths, a
    length-one operand is broadcast, anything else raises. *)
Definition np_sub (a b : Vector) : result Vector :=
  if (length a =? length b)%nat then Ok (zip_with Qminus a b)
  else match a, b with
       | [x], _ => Ok (map (fun v => x - v) b)
       | _, [v] => Ok (map (fun x => x - v) a)
       | _, _ => Raise ValueError
       end.

(** [a.min()] and [a.max()]: a reduction with no identity, so the empty
    array raises. *)
Definition np_min (a : Vector) : result Q :=
  match a with
  | [] => Raise ValueError
  | x :: l => Ok (fold_left Qmin l x)
  end.

Definition np_max (a : Vector) : result Q :=
  match a with
  | [] => Raise ValueError
  | x :: l => Ok (fold_left Qmax l x)
  end.

(** ** The matplotlib axes *)

(** What has been drawn.  Marks accumulate; title, labels, limits and
    legend are overwritten by every call that sets them.  [xlim] and
    [ylim] hold the ranges passed to [set_xlim] and [set_ylim]: the
    autoscaling of the view by [scatter] and [axhline] is not modelled. *)
Inductive Mark : Type :=
  | Scatter (x y : Vector) (c : pyval) (s : option Q) (alpha : option Q)
  | BestFit (x y : Vector) (estimator : string) (ls : string) (lw : Q)
            (c : pyval)
  | HLine (y : Q) (c : pyval).

Record Legend : Type := mkLegend {
  labels : list string;
  loc : string;
  frameon : bool
}.

Record Axes : Type := mkAxes {
  marks : list Mark;
  title : option string;
  xlabel : option string;
  ylabel : option string;
  xlim : option (Q * Q);
  ylim : option (Q * Q);
  legend : option Legend
}.

Definition empty_axes : Axes :=
  mkAxes [] None None None None None None.

Definition add_mark (m : Mark) (ax : Axes) : Axes :=
  mkAxes (marks ax ++ [m]) (title ax) (xlabel ax) (ylabel ax)
         (xlim ax) (ylim ax) (legend ax).

(** [ax.scatter(x, y, c=, s=, alpha=)]: refuses arrays of different
    sizes. *)
Definition ax_scatter (x y : Vector) (c : pyval) (s alpha : option Q)
  (ax : Axes) : result Axes :=
  if (length x =? length y)%nat
  then Ok (add_mark (Scatter x y c s alpha) ax)
  else Raise ValueError.

Definition ax_axhline (y : Q) (c : pyval) (ax : Axes) : Axes :=
  add_mark (HLine y c) ax.

Definition ax_set_title (t : string) (ax : Axes) : Axes :=
  mkAxes (marks ax) (Some t) (xlabel ax) (ylabel ax)
         (xlim ax) (ylim ax) (legend ax).

Definition ax_set_xlabel (t : string) (ax : Axes) : Axes :=
  mkAxes (marks ax) (title ax) (Some t) (ylabel ax)
         (xlim ax) (ylim ax) (legend ax).

Definition ax_set_ylabel (t : string) (ax : Axes) : Axes :=
  mkAxes (marks ax) (title ax) (xlabel ax) (Some t)
         (xlim ax) (ylim ax) (legend ax).

Definition ax_set_xlim (lo hi : Q) (ax : Axes) : Axes :=
  mkAxes (marks ax) (title ax) (xlabel ax) (ylabel ax)
         (Some (lo, hi)) (ylim ax) (legend ax).

Definition ax_set_ylim (lo hi : Q) (ax : Axes) : Axes :=
  mkAxes (marks ax) (title ax) (xlabel ax) (ylabel ax)
         (xlim ax) (Some (lo, hi)) (legend ax).

Definition ax_legend (ls : list string) (where_ : string) (frame : bool)
  (ax : Axes) : Axes :=
  mkAxes (marks ax) (title ax) (xlabel ax) (ylabel ax)
         (xlim ax) (ylim ax) (Some (mkLegend ls where_ frame)).

(** The points of a scatter series, in index order. *)
Definition points (m : Mark) : list (Q * Q) :=
  match m with
  | Scatter x y _ _ _ => zip x y
  | _ => []
  end.

Definition is_hline (m : Mark) : bool :=
  match m with HLine _ _ => true | _ => false end.

(** ** Collaborators *)

(** The scikit-learn estimator interface: [fit] returns the fitted
    estimator, [predict] and [score] read it.  Each may raise. *)
Class Regressor (E : Type) : Type := {
  est_fit : E -> Matrix -> Vector -> gmap string pyval -> result E;
  est_predict : E -> Matrix -> result Vector;
  est_score : E -> Matrix -> Vector -> gmap string pyval -> result Q;
  isregressor : E -> bool;
  get_model_name : E -> string
}.

(** What the module imports besides the base class: the constant
    [LINE_COLOR] of [style.palettes], scikit-learn's [train_test_split]
    (one outcome of the random partition per argument triple) and the
    current axes of pyplot, used when no axes is passed. *)
Class Imports : Type := {
  LINE_COLOR : pyval;
  train_test_split :
    Matrix -> Vector -> Q -> Matrix * Matrix * Vector * Vector;
  gca : Axes
}.

(** Modelled from the spec: the best-fit helper [bestfit.draw_best_fit] is
    not part of this file.  Given two numeric sequences, an axes, a
    fit-method tag and style parameters it draws a fitted line onto the
    axes; the line is recorded with the arguments of the call. *)
Definition draw_best_fit (x y : Vector) (ax : Axes) (estimator : string)
  (ls : string) (lw : Q) (c : pyval) : Axes :=
  add_mark (BestFit x y estimator ls lw c) ax.

(** ** The base class *)

(** The instance attributes: those the base class sets ([estimator],
    [name], [ax]) and the [colors] table of the two subclasses.
    [base_kwargs] records the keyword arguments with which the base
    initialiser was called. *)
Record Visualizer (E : Type) : Type := mkVisualizer {
  estimator : E;
  name : string;
  ax : Axes;
  colors : gmap string pyval;
  base_kwargs : gmap string pyval
}.
Arguments mkVisualizer {E} _ _ _ _ _.
Arguments estimator {E} _.
Arguments name {E} _.
Arguments ax {E} _.
Arguments colors {E} _.
Arguments base_kwargs {E} _.

Definition set_ax {E} (a : Axes) (self : Visualizer E) : Visualizer E :=
  mkVisualizer (estimator self) (name self) a (colors self)
               (base_kwargs self).

Definition set_colors {E} (c : gmap string pyval) (self : Visualizer E)
  : Visualizer E :=
  mkVisualizer (estimator self) (name self) (ax self) c (base_kwargs self).

Definition set_estimator {E} (e : E) (self : Visualizer E) : Visualizer E :=
  mkVisualizer e (name self) (ax self) (colors self) (base_kwargs self).

Module RegressionScoreVisualizer.
Section Base.
Context {E : Type} `{Regressor E} `{Imports}.

(** Modelled from the spec: the base class [RegressionScoreVisualizer] is
    not part of this file.  Its initialiser raises a type error if the
    estimator is not a regressor, and keeps the estimator, its display
    name and the axes (the current axes when none is given). *)
Definition __init__ (model : E) (ax0 : option Axes)
  (kwargs : gmap string pyval) : result (Visualizer E) :=
  if isregressor model
  then Ok (mkVisualizer model (get_model_name model)
             (match ax0 with Some a => a | None => gca end) ∅ kwargs)
  else Raise YellowbrickTypeError.

(** Modelled from the spec: the base estimator-fitting behaviour, [fit]
    of the wrapped estimator. *)
Definition fit (self : Visualizer E) (X : Matrix) (y : Vector)
  (kwargs : gmap string pyval) : result (Visualizer E) :=
  e ← est_fit (estimator self) X y kwargs;
  mret (set_estimator e self).

(** Modelled from the spec: [predict] of the wrapped estimator. *)
Definition predict (self : Visualizer E) (X : Matrix) : result Vector :=
  est_predict (estimator self) X.

(** Modelled from the spec: title-setting on the axes. *)
Definition set_title (self : Visualizer E) (t : string) : Visualizer E :=
  set_ax (ax_set_title t (ax self)) self.
End Base.
End RegressionScoreVisualizer.

(** ** Prediction error plots *)

Module PredictionError.
Section Methods.
Context {E : Type} `{Regressor E} `{Imports}.

Definition __init__ (model : E) (ax0 : option Axes)
  (kwargs : gmap string pyval) : result (Visualizer E) :=
  self ← RegressionScoreVisualizer.__init__ model ax0 kwargs;
  let '(point, kwargs1) := dict_pop "point_color" PyNone kwargs in
  let '(line, kwargs2) := dict_pop "line_color" LINE_COLOR kwargs1 in
  mret (set_colors (<["line" := line]> (<["point" := point]> ∅)) self).

(** Inherited from the base class. *)
Definition fit (self : Visualizer E) (X : Matrix) (y : Vector)
  (kwargs : gmap string pyval) : result (Visualizer E) :=
  RegressionScoreVisualizer.fit self X y kwargs.

(** Returns [self.ax], the axes of the visualizer it returns. *)
Definition draw (self : Visualizer E) (y y_pred : Vector)
  : result (Visualizer E) :=
  point ← dict_get "point" (colors self);
  ax1 ← ax_scatter y y_pred point None None (ax self);
  line ← dict_get "line" (colors self);
  let ax2 := draw_best_fit y y_pred ax1 "linear" "--" 2 line in
  ymin ← np_min y;
  ymax ← np_max y;
  let ax3 := ax_set_xlim (ymin - 1) (ymax + 1) ax2 in
  pmin ← np_min y_pred;
  pmax ← np_max y_pred;
  let ax4 := ax_set_ylim (pmin - 1) (pmax + 1) ax3 in
  mret (set_ax ax4 self).

Definition score (self : Visualizer E) (X : Matrix) (y : Vector)
  (kwargs : gmap string pyval) : result (Q * Visualizer E) :=
  y_pred ← RegressionScoreVisualizer.predict self X;
  self1 ← draw self y y_pred;
  r ← est_score (estimator self1) X y kwargs;
  mret (r, self1).

Definition finalize (self : Visualizer E) : result (Visualizer E) :=
  let self1 :=
    RegressionScoreVisualizer.set_title self
      ("Prediction Error for " +:+ name self) in
  let ax1 := ax_set_ylabel "Predicted" (ax self1) in
  let ax2 := ax_set_xlabel "Measured" ax1 in
  mret (set_ax ax2 self1).
End Methods.
End PredictionError.

Definition prediction_error {E : Type} `{Regressor E} `{Imports}
  (model : E) (X : Matrix) (y : Vector) (ax0 : option Axes)
  (kwargs : gmap string pyval) : result Axes :=
  visualizer ← PredictionError.__init__ model ax0 kwargs;
  let '(X_train, X_test, y_train, y_test) :=
    train_test_split X y 0.2 in
  visualizer ← PredictionError.fit visualizer X_train y_train kwargs;
  '(_, visualizer) ← PredictionError.score visualizer X_test y_test ∅;
  visualizer ← PredictionError.finalize visualizer;
  mret (ax visualizer).

(** ** Residuals plots *)

Module ResidualsPlot.
Section Methods.
Context {E : Type} `{Regressor E} `{Imports}.

Definition __init__ (model : E) (ax0 : option Axes)
  (kwargs : gmap string pyval) : result (Visualizer E) :=
  self ← RegressionScoreVisualizer.__init__ model ax0 kwargs;
  let '(train, kwargs1) := dict_pop "train_color" (PyStr "b") kwargs in
  let '(test, kwargs2) := dict_pop "test_color" (PyStr "g") kwargs1 in
  let '(line, kwargs3) := dict_pop "line_color" LINE_COLOR kwargs2 in
  mret (set_colors
          (<["line" := line]>
             (<["test_point" := test]> (<["train_point" := train]> ∅)))
          self).

(** Returns [self.ax], the axes of the visualizer it returns. *)
Definition draw (self : Visualizer E) (y_pred residuals : Vector)
  (train : bool) : result (Visualizer E) :=
  color ← (if train then dict_get "train_point" (colors self)
           else dict_get "test_point" (colors self));
  let alpha := if train then 0.5 else 1.0 in
  ax1 ← ax_scatter y_pred residuals color (Some 40) (Some alpha)
          (ax self);
  mret (set_ax ax1 self).

(** Returns nothing. *)
Definition score (self : Visualizer E) (X : Matrix) (y : Vector)
  (train : bool) : result (Visualizer E) :=
  y_pred ← RegressionScoreVisualizer.predict self X;
  scores ← np_sub y_pred y;
  draw self y_pred scores train.

Definition fit (self : Visualizer E) (X : Matrix) (y : Vector)
  (kwargs : gmap string pyval) : result (Visualizer E) :=
  self1 ← RegressionScoreVisualizer.fit self X y kwargs;
  score self1 X y true.

Definition finalize (self : Visualizer E) : result (Visualizer E) :=
  let self1 :=
    RegressionScoreVisualizer.set_title self
      ("Residuals for " +:+ name self +:+ " Model") in
  let ax1 :=
    ax_legend ["Training Data"; "Test Data"] "best" true (ax self1) in
  line ← dict_get "line" (colors self1);
  let ax2 := ax_axhline 0 line ax1 in
  let ax3 := ax_set_ylabel "Residuals" ax2 in
  let ax4 := ax_set_xlabel "Predicted Value" ax3 in
  mret (set_ax ax4 self1).
End Methods.
End ResidualsPlot.

Definition residuals_plot {E : Type} `{Regressor E} `{Imports}
  (model : E) (X : Matrix) (y : Vector) (ax0 : option Axes)
  (kwargs : gmap string pyval) : result Axes :=
  visualizer ← ResidualsPlot.__init__ model ax0 kwargs;
  let '(X_train, X_test, y_train, y_test) :=
    train_test_split X y 0.2 in
  visualizer ← ResidualsPlot.fit visualizer X_train y_train kwargs;
  visualizer ← ResidualsPlot.score visualizer X_test y_test false;
  visualizer ← ResidualsPlot.finalize visualizer;
  mret (ax visualizer).

(** [finalize] called [k] times in a row. *)
Fixpoint iterate {A} (f : A -> result A) (k : nat) (a : A) : result A :=
  match k with
  | O => Ok a
  | S k' => a' ← f a; iterate f k' a'
  end.

(** ** A concrete estimator, for running the model *)

(** A fitted one-feature regressor that predicts the single feature of
    each row, and reports a fixed score. *)
Module Toy.
Inductive model : Type := Fitted | Classifier.

Definition row_value (r : list Q) : Q :=
  match r with x :: _ => x | [] => 0 end.

#[global] Instance toy_regressor : Regressor model := {|
  est_fit := fun e _ _ _ => Ok e;
  est_predict := fun _ X => Ok (map row_value X);
  est_score := fun _ _ _ _ => Ok (9 # 10);
  isregressor := fun e => match e with Fitted => true | _ => false end;
  get_model_name := fun _ => "Toy"
|}.

(** The split keeps the last row as the held-out subset. *)
Definition split (X : Matrix) (y : Vector) (test_size : Q)
  : Matrix * Matrix * Vector * Vector :=
  (removelast X, skipn (length X - 1) X,
   removelast y, skipn (length y - 1) y).

#[global] Instance toy_imports : Imports := {|
  LINE_COLOR := PyStr "#111111";
  train_test_split := split;
  gca := empty_axes
|}.

Definition viz : Visualizer model :=
  mkVisualizer Fitted "Toy" empty_axes
    (<["line" := PyStr "#111111"]>
       (<["test_point" := PyStr "g"]>
          (<["train_point" := PyStr "b"]>
             (<["point" := PyNone]> ∅))))
    ∅.
End Toy.

Definition is_bestfit (m : Mark) : bool :=
  match m with BestFit _ _ _ _ _ _ => true | _ => false end.

(** The text on an axes, and its ranges. *)
Definition texts (a : Axes)
  : option string * option string * option string * option Legend :=
  (title a, xlabel a, ylabel a, legend a).

Definition limits (a : Axes) : option (Q * Q) * option (Q * Q) :=
  (xlim a, ylim a).

(** The attributes of a visualizer that are set by its constructor. *)
Definition static {E} (self : Visualizer E)
  : gmap string pyval * string * gmap string pyval :=
  (colors self, name self, base_kwargs self).

(** ** Lifecycles *)

(** The visualizers a caller can hold: what a constructor returned, and
    what any method returned on such a visualizer. *)
Section Lifecycles.
Context {E : Type} `{Regressor E} `{Imports}.

Inductive pe_reachable (model : E) (kwargs : gmap string pyval)
  : Visualizer E -> Prop :=
  | pe_constructed ax0 self :
      PredictionError.__init__ model ax0 kwargs = Ok self ->
      pe_reachable model kwargs self
  | pe_after_fit self X y kw self' :
      pe_reachable model kwargs self ->
      PredictionError.fit self X y kw = Ok self' ->
      pe_reachable model kwargs self'
  | pe_after_score self X y kw r self' :
      pe_reachable model kwargs self ->
      PredictionError.score self X y kw = Ok (r, self') ->
      pe_reachable model kwargs self'
  | pe_after_draw self y y_pred self' :
      pe_reachable model kwargs self ->
      PredictionError.draw self y y_pred = Ok self' ->
      pe_reachable model kwargs self'
  | pe_after_finalize self self' :
      pe_reachable model kwargs self ->
      PredictionError.finalize self = Ok self' ->
      pe_reachable model kwargs self'.

Inductive rp_reachable (model : E) (kwargs : gmap string pyval)
  : Visualizer E -> Prop :=
  | rp_constructed ax0 self :
      ResidualsPlot.__init__ model ax0 kwargs = Ok self ->
      rp_reachable model kwargs self
  | rp_after_fit self X y kw self' :
      rp_reachable model kwargs self ->
      ResidualsPlot.fit self X y kw = Ok self' ->
      rp_reachable model kwargs self'
  | rp_after_score self X y train self' :
      rp_reachable model kwargs self ->
      ResidualsPlot.score self X y train = Ok self' ->
      rp_reachable model kwargs self'
  | rp_after_draw self y_pred residuals train self' :
      rp_reachable model kwargs self ->
      ResidualsPlot.draw self y_pred residuals train = Ok self' ->
      rp_reachable model kwargs self'
  | rp_after_finalize self self' :
      rp_reachable model kwargs self ->
      ResidualsPlot.finalize self = Ok self' ->
      rp_reachable model kwargs self'.
End Lifecycles.

(** The least and the greatest entry of an array. *)
Definition is_min (m : Q) (a : Vector) : Prop :=
  In m a /\ forall x, In x a -> m <= x.

Definition is_max (m : Q) (a : Vector) : Prop :=
  In m a /\ forall x, In x a -> x <= m.

(** The colour key and the opacity [ResidualsPlot.draw] picks for either
    value of [train]. *)
Definition point_key (train : bool) : string :=
  if train then "train_point" else "test_point".

Definition opacity (train : bool) : Q :=
  if train then 0.5 else 1.0.

(** * Properties *)

(** ** The [result] monad *)

Lemma bind_Ok {A B} (m : result A) (f : A -> result B) (b : B) :
  m ≫= f = Ok b <-> exists a, m = Ok a /\ f a = Ok b.
Proof.
  destruct m as [a|e]; simpl; split.
  - intros Hf. exists a. split; [reflexivity | exact Hf].
  - intros (a' & Ha & Hf). injection Ha as ->. exact Hf.
  - discriminate.
  - intros (a' & Ha & _). discriminate.
Qed.

Lemma bind_of_Ok {A B} (m : result A) (f : A -> result B) (a : A) :
  m = Ok a -> m ≫= f = f a.
Proof. intros ->. reflexivity. Qed.

(** Splits every successful bind among the hypotheses. *)
Ltac inv_result :=
  repeat match goal with
  | H : _ ≫= _ = Ok _ |- _ =>
      apply bind_Ok in H; destruct H as (? & ? & H)
  | H : mret _ = Ok _ |- _ => injection H as H
  | H : Ok _ = Ok _ |- _ => injection H as H
  | H : Raise _ = Ok _ |- _ => discriminate H
  end.

Lemma dict_get_Some k d v : d !! k = Some v -> dict_get k d = Ok v.
Proof. unfold dict_get. intros ->. reflexivity. Qed.

Lemma dict_get_Ok k d v : dict_get k d = Ok v -> d !! k = Some v.
Proof. unfold dict_get. destruct (d !! k); [congruence | discriminate]. Qed.

(** ** Arrays *)

Lemma fold_Qmin_spec l x :
  is_min (fold_left Qmin l x) (x :: l).
Proof.
  revert x. induction l as [|z l IH]; intros x; simpl.
  - split; [left; reflexivity |].
    intros y [<- | []]. apply Qle_refl.
  - destruct (IH (Qmin x z)) as [Hin Hle]. split.
    + destruct Hin as [Hm | Hin]; [| right; right; exact Hin].
      rewrite <- Hm. unfold Qmin, GenericMinMax.gmin.
      destruct (Qcompare x z); [left | left | right; left]; reflexivity.
    + intros y [<- | [<- | Hy]].
      * eapply Qle_trans; [apply Hle; left; reflexivity |].
        apply Q.le_min_l.
      * eapply Qle_trans; [apply Hle; left; reflexivity |].
        apply Q.le_min_r.
      * apply Hle. right. exact Hy.
Qed.

Lemma fold_Qmax_spec l x :
  is_max (fold_left Qmax l x) (x :: l).
Proof.
  revert x. induction l as [|z l IH]; intros x; simpl.
  - split; [left; reflexivity |].
    intros y [<- | []]. apply Qle_refl.
  - destruct (IH (Qmax x z)) as [Hin Hle]. split.
    + destruct Hin as [Hm | Hin]; [| right; right; exact Hin].
      rewrite <- Hm. unfold Qmax, GenericMinMax.gmax.
      destruct (Qcompare x z); [left | right; left | left]; reflexivity.
    + intros y [<- | [<- | Hy]].
      * eapply Qle_trans; [| apply Hle; left; reflexivity].
        apply Q.le_max_l.
      * eapply Qle_trans; [| apply Hle; left; reflexivity].
        apply Q.le_max_r.
      * apply Hle. right. exact Hy.
Qed.

Lemma np_min_spec a : a <> [] -> exists m, np_min a = Ok m /\ is_min m a.
Proof.
  destruct a as [|x l]; [congruence | intros _].
  eexists. split; [reflexivity | apply fold_Qmin_spec].
Qed.

Lemma np_max_spec a : a <> [] -> exists m, np_max a = Ok m /\ is_max m a.
Proof.
  destruct a as [|x l]; [congruence | intros _].
  eexists. split; [reflexivity | apply fold_Qmax_spec].
Qed.

Lemma np_sub_same_length (a b : Vector) :
  length a = length b -> np_sub a b = Ok (zip_with Qminus a b).
Proof.
  intros Hl. unfold np_sub.
  destruct (Nat.eqb_spec (length a) (length b)); [reflexivity | contradiction].
Qed.

Lemma ax_scatter_same_length x y c s alpha a :
  length x = length y ->
  ax_scatter x y c s alpha a = Ok (add_mark (Scatter x y c s alpha) a).
Proof.
  intros Hl. unfold ax_scatter.
  destruct (Nat.eqb_spec (length x) (length y)); [reflexivity | contradiction].
Qed.

Lemma ax_scatter_Ok x y c s alpha a a' :
  ax_scatter x y c s alpha a = Ok a' ->
  length x = length y /\ a' = add_mark (Scatter x y c s alpha) a.
Proof.
  unfold ax_scatter.
  destruct (Nat.eqb_spec (length x) (length y)); [| discriminate].
  intros [= <-]. split; [assumption | reflexivity].
Qed.

(** ** PredictionError *)

Section PredictionErrorProps.
Context {E : Type} `{Regressor E} `{Imports}.

(** What [draw] leaves on the axes when nothing raises. *)
Lemma prediction_error_draw_Ok (self self' : Visualizer E) y y_pred :
  PredictionError.draw self y y_pred = Ok self' ->
  exists point line lo hi plo phi,
    colors self !! "point" = Some point /\
    colors self !! "line" = Some line /\
    length y = length y_pred /\
    np_min y = Ok lo /\ np_max y = Ok hi /\
    np_min y_pred = Ok plo /\ np_max y_pred = Ok phi /\
    self' =
      set_ax
        (ax_set_ylim (plo - 1) (phi + 1)
           (ax_set_xlim (lo - 1) (hi + 1)
              (draw_best_fit y y_pred
                 (add_mark (Scatter y y_pred point None None) (ax self))
                 "linear" "--" 2 line)))
        self.
Proof.
  unfold PredictionError.draw. intros Hd. inv_result.
  match goal with Hs : ax_scatter _ _ _ _ _ _ = Ok _ |- _ =>
    apply ax_scatter_Ok in Hs; destruct Hs as [Hlen ->] end.
  repeat match goal with Hg : dict_get _ _ = Ok _ |- _ =>
    apply dict_get_Ok in Hg end.
  subst self'. do 6 eexists. repeat (split; [eassumption |]).
  reflexivity.
Qed.

Lemma prediction_error_draw_total (self : Visualizer E) y y_pred point line :
  colors self !! "point" = Some point ->
  colors self !! "line" = Some line ->
  y <> [] ->
  length y = length y_pred ->
  exists self', PredictionError.draw self y y_pred = Ok self'.
Proof.
  intros Hp Hl Hne Hlen.
  assert (Hne' : y_pred <> []).
  { destruct y_pred; [| discriminate].
    destruct y; [congruence | discriminate]. }
  destruct (np_min_spec y Hne) as (lo & Hlo & _).
  destruct (np_max_spec y Hne) as (hi & Hhi & _).
  destruct (np_min_spec y_pred Hne') as (plo & Hplo & _).
  destruct (np_max_spec y_pred Hne') as (phi & Hphi & _).
  unfold PredictionError.draw.
  rewrite (dict_get_Some _ _ _ Hp), (dict_get_Some _ _ _ Hl). simpl.
  rewrite (ax_scatter_same_length _ _ _ _ _ _ Hlen). simpl.
  rewrite Hlo, Hhi. simpl. rewrite Hplo, Hphi. simpl.
  eexists. reflexivity.
Qed.

Lemma prediction_error_draw_estimator (self self' : Visualizer E) y y_pred :
  PredictionError.draw self y y_pred = Ok self' ->
  estimator self' = estimator self.
Proof.
  intros Hd. apply prediction_error_draw_Ok in Hd.
  destruct Hd as (? & ? & ? & ? & ? & ? & _ & _ & _ & _ & _ & _ & _ & ->).
  reflexivity.
Qed.

(** C1: [PredictionError.score] runs [predict], then [draw] on
    [(y, y_pred)], and returns the very value of the estimator's
    [score(X, y)]: whenever it returns, its result is that value and its
    state the one [draw] left; and on a well-formed input ([y] non-empty
    and as long as the predictions, the colour table populated) it does
    return. *)
Theorem prediction_error_score_returns_estimator_score
  (self : Visualizer E) (X : Matrix) (y : Vector)
  (kwargs : gmap string pyval) :
  (forall r self',
     PredictionError.score self X y kwargs = Ok (r, self') ->
     exists y_pred,
       est_predict (estimator self) X = Ok y_pred /\
       PredictionError.draw self y y_pred = Ok self' /\
       est_score (estimator self) X y kwargs = Ok r) /\
  (forall y_pred r point line,
     est_predict (estimator self) X = Ok y_pred ->
     est_score (estimator self) X y kwargs = Ok r ->
     y <> [] ->
     length y_pred = length y ->
     colors self !! "point" = Some point ->
     colors self !! "line" = Some line ->
     exists self',
       PredictionError.draw self y y_pred = Ok self' /\
       PredictionError.score self X y kwargs = Ok (r, self')).
Proof.
  split.
  - intros r self' Hs.
    unfold PredictionError.score, RegressionScoreVisualizer.predict in Hs.
    inv_result. subst.
    match goal with Hd : PredictionError.draw _ _ ?p = Ok _ |- _ =>
      exists p; rewrite (prediction_error_draw_estimator _ _ _ _ Hd) in *;
      repeat split; assumption end.
  - intros y_pred r point line Hpred Hscore Hne Hlen Hp Hl.
    destruct (prediction_error_draw_total self y y_pred point line)
      as [self' Hd]; auto.
    exists self'. split; [exact Hd |].
    unfold PredictionError.score, RegressionScoreVisualizer.predict.
    rewrite Hpred. simpl. rewrite Hd. simpl.
    rewrite (prediction_error_draw_estimator _ _ _ _ Hd), Hscore.
    reflexivity.
Qed.

(** C4: for non-empty [y] and [y_pred] (of one length, as [scatter]
    requires), [PredictionError.draw] sets the x-range of the axes to
    [min(y)-1, max(y)+1] and its y-range to
    [min(y_pred)-1, max(y_pred)+1]. *)
Theorem prediction_error_draw_limits
  (self : Visualizer E) (y y_pred : Vector) (point line : pyval) :
  y <> [] ->
  y_pred <> [] ->
  length y = length y_pred ->
  colors self !! "point" = Some point ->
  colors self !! "line" = Some line ->
  exists self' lo hi plo phi,
    PredictionError.draw self y y_pred = Ok self' /\
    is_min lo y /\ is_max hi y /\
    is_min plo y_pred /\ is_max phi y_pred /\
    xlim (ax self') = Some (lo - 1, hi + 1) /\
    ylim (ax self') = Some (plo - 1, phi + 1).
Proof.
  intros Hne Hne' Hlen Hp Hl.
  destruct (prediction_error_draw_total self y y_pred point line)
    as [self' Hd]; auto.
  destruct (prediction_error_draw_Ok _ _ _ _ Hd)
    as (p & l & lo & hi & plo & phi & _ & _ & _ & Hlo & Hhi & Hplo & Hphi
        & Heq).
  exists self', lo, hi, plo, phi.
  destruct (np_min_spec y Hne) as (m1 & E1 & S1).
  destruct (np_max_spec y Hne) as (m2 & E2 & S2).
  destruct (np_min_spec y_pred Hne') as (m3 & E3 & S3).
  destruct (np_max_spec y_pred Hne') as (m4 & E4 & S4).
  rewrite Hlo in E1. rewrite Hhi in E2. rewrite Hplo in E3.
  rewrite Hphi in E4.
  injection E1 as <-. injection E2 as <-.
  injection E3 as <-. injection E4 as <-.
  subst self'. repeat (split; [assumption |]).
  split; reflexivity.
Qed.
End PredictionErrorProps.

(** ** ResidualsPlot *)

Section ResidualsPlotProps.
Context {E : Type} `{Regressor E} `{Imports}.

Lemma residuals_draw_Ok (self self' : Visualizer E) y_pred residuals train :
  ResidualsPlot.draw self y_pred residuals train = Ok self' ->
  exists color,
    colors self !! point_key train = Some color /\
    length y_pred = length residuals /\
    self' =
      set_ax
        (add_mark
           (Scatter y_pred residuals color (Some 40)
              (Some (opacity train)))
           (ax self))
        self.
Proof.
  unfold ResidualsPlot.draw. intros Hd. inv_result.
  match goal with Hs : ax_scatter _ _ _ _ _ _ = Ok _ |- _ =>
    apply ax_scatter_Ok in Hs; destruct Hs as [Hlen ->] end.
  subst self'. eexists. split; [| split; [exact Hlen | reflexivity]].
  destruct train; simpl; apply dict_get_Ok; assumption.
Qed.

Lemma residuals_draw_total (self : Visualizer E) y_pred residuals train
  color :
  colors self !! point_key train = Some color ->
  length y_pred = length residuals ->
  ResidualsPlot.draw self y_pred residuals train
  = Ok (set_ax
          (add_mark
             (Scatter y_pred residuals color (Some 40)
                (Some (opacity train)))
             (ax self))
          self).
Proof.
  intros Hc Hlen. unfold ResidualsPlot.draw.
  destruct train; simpl in Hc; rewrite (dict_get_Some _ _ _ Hc); simpl;
    rewrite (ax_scatter_same_length _ _ _ _ _ _ Hlen); reflexivity.
Qed.

Lemma residuals_score_total (self : Visualizer E) X y y_pred train color :
  est_predict (estimator self) X = Ok y_pred ->
  length y_pred = length y ->
  colors self !! point_key train = Some color ->
  ResidualsPlot.score self X y train
  = Ok (set_ax
          (add_mark
             (Scatter y_pred (zip_with Qminus y_pred y) color (Some 40)
                (Some (opacity train)))
             (ax self))
          self).
Proof.
  intros Hpred Hlen Hc.
  unfold ResidualsPlot.score, RegressionScoreVisualizer.predict.
  rewrite Hpred. simpl. rewrite (np_sub_same_length _ _ Hlen). simpl.
  apply residuals_draw_total; [exact Hc |].
  rewrite length_zip_with. rewrite Hlen. symmetry. apply Nat.min_id.
Qed.
(** C2: [ResidualsPlot.score] computes [residuals = predict(X) - y]
    element-wise and hands [(y_pred, residuals)] to [draw], so that the
    scatter point of every index [i] is [(y_pred[i], y_pred[i] - y[i])];
    for predictions [5, 6] and targets [4, 8] the residuals are
    [1, -2] and the points (5, 1) and (6, -2). *)
Theorem residuals_score_points
  (self : Visualizer E) (X : Matrix) (y y_pred : Vector) (train : bool)
  (color : pyval) :
  est_predict (estimator self) X = Ok y_pred ->
  length y_pred = length y ->
  colors self !! point_key train = Some color ->
  exists residuals self',
    let series :=
      Scatter y_pred residuals color (Some 40) (Some (opacity train)) in
    np_sub y_pred y = Ok residuals /\
    ResidualsPlot.draw self y_pred residuals train = Ok self' /\
    ResidualsPlot.score self X y train = Ok self' /\
    marks (ax self') = marks (ax self) ++ [series] /\
    length residuals = length y /\
    (forall i p t,
       y_pred !! i = Some p -> y !! i = Some t ->
       residuals !! i = Some (p - t) /\
       points series !! i = Some (p, p - t)) /\
    (y_pred = [5; 6] -> y = [4; 8] ->
     residuals = [1; -2] /\ points series = [(5, 1); (6, -2)]).
Proof.
  intros Hpred Hlen Hc.
  assert (Hlr : length y_pred = length (zip_with Qminus y_pred y)).
  { rewrite length_zip_with, Hlen. symmetry. apply Nat.min_id. }
  exists (zip_with Qminus y_pred y). eexists. cbv zeta.
  split; [apply np_sub_same_length; exact Hlen |].
  split; [apply residuals_draw_total; eassumption |].
  split; [apply residuals_score_total; eassumption |].
  split; [reflexivity |].
  split; [congruence |].
  split.
  - intros i p t Hp Ht.
    assert (Hr : zip_with Qminus y_pred y !! i = Some (p - t)).
    { rewrite lookup_zip_with, Hp, Ht. reflexivity. }
    split; [exact Hr |].
    unfold points. rewrite lookup_zip_with, Hp, Hr. reflexivity.
  - intros -> ->. split; reflexivity.
Qed.

(** C5: [ResidualsPlot.draw] scatters training points in the
    "train_point" colour at opacity 0.5 and test points in the
    "test_point" colour at opacity 1.0, whatever the two colours are. *)
Theorem residuals_draw_color_opacity
  (self : Visualizer E) (y_pred residuals : Vector)
  (train_color test_color : pyval) :
  colors self !! "train_point" = Some train_color ->
  colors self !! "test_point" = Some test_color ->
  length y_pred = length residuals ->
  (exists self',
     ResidualsPlot.draw self y_pred residuals true = Ok self' /\
     marks (ax self') =
       marks (ax self)
       ++ [Scatter y_pred residuals train_color (Some 40) (Some 0.5)]) /\
  (exists self',
     ResidualsPlot.draw self y_pred residuals false = Ok self' /\
     marks (ax self') =
       marks (ax self)
       ++ [Scatter y_pred residuals test_color (Some 40) (Some 1.0)]).
Proof.
  intros Htrain Htest Hlen. split; eexists; split.
  - apply (residuals_draw_total self _ _ true train_color); assumption.
  - reflexivity.
  - apply (residuals_draw_total self _ _ false test_color); assumption.
  - reflexivity.
Qed.

(** C3: [ResidualsPlot.fit] fits the estimator and then scores the
    training data with [train=True]: it adds exactly one series, in the
    training colour at opacity 0.5; a later [score] on held-out data adds
    the test series after it, so the training series is the first of
    the two. *)
Theorem residuals_fit_draws_training_first
  (self : Visualizer E) (X : Matrix) (y : Vector)
  (kwargs : gmap string pyval) (fitted : E) (y_pred : Vector)
  (train_color : pyval) :
  est_fit (estimator self) X y kwargs = Ok fitted ->
  est_predict fitted X = Ok y_pred ->
  length y_pred = length y ->
  colors self !! "train_point" = Some train_color ->
  let training :=
    Scatter y_pred (zip_with Qminus y_pred y) train_color (Some 40)
      (Some 0.5) in
  exists self1,
    ResidualsPlot.fit self X y kwargs = Ok self1 /\
    ResidualsPlot.score (set_estimator fitted self) X y true = Ok self1 /\
    marks (ax self1) = marks (ax self) ++ [training] /\
    forall X_test y_test p_test test_color,
      est_predict fitted X_test = Ok p_test ->
      length p_test = length y_test ->
      colors self !! "test_point" = Some test_color ->
      exists self2,
        ResidualsPlot.score self1 X_test y_test false = Ok self2 /\
        marks (ax self2) =
          marks (ax self)
          ++ [training;
              Scatter p_test (zip_with Qminus p_test y_test) test_color
                (Some 40) (Some 1.0)].
Proof.
  intros Hfit Hpred Hlen Hc training.
  assert (Hs : ResidualsPlot.score (set_estimator fitted self) X y true
               = Ok (set_ax (add_mark training (ax self))
                       (set_estimator fitted self))).
  { exact (residuals_score_total (set_estimator fitted self) X y y_pred
             true train_color Hpred Hlen Hc). }
  eexists. split; [| split; [exact Hs | split; [reflexivity |]]].
  - unfold ResidualsPlot.fit, RegressionScoreVisualizer.fit.
    rewrite Hfit. simpl. exact Hs.
  - intros X_test y_test p_test test_color Hp Hl Ht.
    eexists. split.
    + exact (residuals_score_total
               (set_ax (add_mark training (ax self))
                  (set_estimator fitted self))
               X_test y_test p_test false test_color Hp Hl Ht).
    + simpl. rewrite <- app_assoc. reflexivity.
Qed.

Lemma residuals_finalize_total (self : Visualizer E) (line : pyval) :
  colors self !! "line" = Some line ->
  exists self',
    ResidualsPlot.finalize self = Ok self' /\
    marks (ax self') = marks (ax self) ++ [HLine 0 line] /\
    colors self' = colors self /\
    name self' = name self /\
    title (ax self') = Some ("Residuals for " +:+ name self +:+ " Model") /\
    xlabel (ax self') = Some "Predicted Value" /\
    ylabel (ax self') = Some "Residuals" /\
    legend (ax self')
    = Some (mkLegend ["Training Data"; "Test Data"] "best" true).
Proof.
  intros Hl. unfold ResidualsPlot.finalize. simpl.
  rewrite (dict_get_Some _ _ _ Hl). simpl.
  eexists. split; [reflexivity |]. repeat split.
Qed.

Lemma residuals_finalize_Ok (self self' : Visualizer E) :
  ResidualsPlot.finalize self = Ok self' ->
  exists line, colors self !! "line" = Some line.
Proof.
  unfold ResidualsPlot.finalize. intros Hf. inv_result.
  match goal with Hg : dict_get _ _ = Ok _ |- _ =>
    apply dict_get_Ok in Hg; simpl in Hg end.
  eexists. eassumption.
Qed.

(** C9: every [ResidualsPlot.finalize] appends one more horizontal line
    at residual 0 in the "line" colour: [k] calls in a row leave [k] new
    such lines on the axes. *)
Theorem residuals_finalize_appends_hline
  (self : Visualizer E) (line : pyval) (k : nat) :
  colors self !! "line" = Some line ->
  exists self',
    iterate ResidualsPlot.finalize k self = Ok self' /\
    marks (ax self') = marks (ax self) ++ replicate k (HLine 0 line) /\
    length (List.filter is_hline (marks (ax self')))
    = (length (List.filter is_hline (marks (ax self))) + k)%nat.
Proof.
  intros Hl.
  assert (Hgen : exists self',
    iterate ResidualsPlot.finalize k self = Ok self' /\
    marks (ax self') = marks (ax self) ++ replicate k (HLine 0 line)).
  { revert self Hl. induction k as [|k IH]; intros self Hl.
    - exists self. split; [reflexivity |]. simpl.
      rewrite app_nil_r. reflexivity.
    - destruct (residuals_finalize_total self line Hl)
        as (s1 & Hf & Hm & Hc & _).
      destruct (IH s1) as (s2 & Hi & Hm2); [congruence |].
      exists s2. split.
      + simpl. rewrite Hf. simpl. exact Hi.
      + rewrite Hm2, Hm, <- app_assoc. reflexivity. }
  destruct Hgen as (self' & Hi & Hm). exists self'.
  split; [exact Hi |]. split; [exact Hm |].
  rewrite Hm, List.filter_app, length_app. f_equal.
  clear. induction k as [|k IH]; simpl; [reflexivity | now rewrite IH].
Qed.
End ResidualsPlotProps.

(** ** Construction and the colour table *)

Section Construction.
Context {E : Type} `{Regressor E} `{Imports}.

Lemma base_init_Ok (model : E) ax0 kwargs (self : Visualizer E) :
  RegressionScoreVisualizer.__init__ model ax0 kwargs = Ok self ->
  isregressor model = true /\
  self = mkVisualizer model (get_model_name model)
           (match ax0 with Some a => a | None => gca end) ∅ kwargs.
Proof.
  unfold RegressionScoreVisualizer.__init__.
  destruct (isregressor model); [| discriminate].
  intros [= <-]. split; reflexivity.
Qed.

Lemma prediction_error_init_Ok (model : E) ax0 kwargs self :
  PredictionError.__init__ model ax0 kwargs = Ok self ->
  exists base,
    RegressionScoreVisualizer.__init__ model ax0 kwargs = Ok base /\
    self =
      set_colors
        (<["line" := default LINE_COLOR (kwargs !! "line_color")]>
           (<["point" := default PyNone (kwargs !! "point_color")]> ∅))
        base.
Proof.
  unfold PredictionError.__init__. intros Hi. inv_result.
  eexists. split; [eassumption |].
  unfold dict_pop in Hi. rewrite lookup_delete_ne in Hi by discriminate.
  injection Hi as <-.
  destruct (kwargs !! "point_color"), (kwargs !! "line_color");
    reflexivity.
Qed.

Lemma residuals_init_Ok (model : E) ax0 kwargs self :
  ResidualsPlot.__init__ model ax0 kwargs = Ok self ->
  exists base,
    RegressionScoreVisualizer.__init__ model ax0 kwargs = Ok base /\
    self =
      set_colors
        (<["line" := default LINE_COLOR (kwargs !! "line_color")]>
           (<["test_point" :=
                default (PyStr "g") (kwargs !! "test_color")]>
              (<["train_point" :=
                   default (PyStr "b") (kwargs !! "train_color")]> ∅)))
        base.
Proof.
  unfold ResidualsPlot.__init__. intros Hi. inv_result.
  eexists. split; [eassumption |].
  unfold dict_pop in Hi. rewrite !lookup_delete_ne in Hi by discriminate.
  injection Hi as <-.
  destruct (kwargs !! "train_color"), (kwargs !! "test_color"),
    (kwargs !! "line_color"); reflexivity.
Qed.

Lemma init_total (model : E) ax0 kwargs :
  isregressor model = true ->
  is_ok (PredictionError.__init__ model ax0 kwargs) = true /\
  is_ok (ResidualsPlot.__init__ model ax0 kwargs) = true.
Proof.
  intros Hr.
  unfold PredictionError.__init__, ResidualsPlot.__init__,
    RegressionScoreVisualizer.__init__, dict_pop.
  rewrite Hr. split; reflexivity.
Qed.

(** No method writes the colour table. *)
Lemma prediction_error_fit_colors (self self' : Visualizer E) X y kw :
  PredictionError.fit self X y kw = Ok self' ->
  colors self' = colors self.
Proof.
  unfold PredictionError.fit, RegressionScoreVisualizer.fit.
  intros Hf. inv_result. subst self'. reflexivity.
Qed.

Lemma prediction_error_draw_colors (self self' : Visualizer E) y y_pred :
  PredictionError.draw self y y_pred = Ok self' ->
  colors self' = colors self.
Proof.
  intros Hd. apply prediction_error_draw_Ok in Hd.
  destruct Hd as (? & ? & ? & ? & ? & ? & _ & _ & _ & _ & _ & _ & _ & ->).
  reflexivity.
Qed.

Lemma prediction_error_score_colors (self self' : Visualizer E) X y kw r :
  PredictionError.score self X y kw = Ok (r, self') ->
  colors self' = colors self.
Proof.
  unfold PredictionError.score. intros Hs. inv_result. subst.
  eapply prediction_error_draw_colors. eassumption.
Qed.

Lemma prediction_error_finalize_colors (self self' : Visualizer E) :
  PredictionError.finalize self = Ok self' ->
  colors self' = colors self.
Proof. intros [= <-]. reflexivity. Qed.

Lemma residuals_draw_colors (self self' : Visualizer E) y_pred res train :
  ResidualsPlot.draw self y_pred res train = Ok self' ->
  colors self' = colors self.
Proof.
  intros Hd. apply residuals_draw_Ok in Hd.
  destruct Hd as (? & _ & _ & ->). reflexivity.
Qed.

Lemma residuals_score_colors (self self' : Visualizer E) X y train :
  ResidualsPlot.score self X y train = Ok self' ->
  colors self' = colors self.
Proof.
  unfold ResidualsPlot.score. intros Hs. inv_result.
  eapply residuals_draw_colors. eassumption.
Qed.

Lemma residuals_fit_colors (self self' : Visualizer E) X y kw :
  ResidualsPlot.fit self X y kw = Ok self' ->
  colors self' = colors self.
Proof.
  unfold ResidualsPlot.fit, RegressionScoreVisualizer.fit.
  intros Hf. inv_result. subst.
  match goal with Hs : ResidualsPlot.score _ _ _ _ = Ok _ |- _ =>
    apply residuals_score_colors in Hs; exact Hs end.
Qed.

Lemma residuals_finalize_colors (self self' : Visualizer E) :
  ResidualsPlot.finalize self = Ok self' ->
  colors self' = colors self.
Proof.
  intros Hf. destruct (residuals_finalize_Ok _ _ Hf) as [line Hl].
  destruct (residuals_finalize_total self line Hl) as (s & Hf' & _ & Hc & _).
  congruence.
Qed.
Lemma residuals_init_explicit (model : E) ax0 kwargs :
  isregressor model = true ->
  ResidualsPlot.__init__ model ax0 kwargs
  = Ok (mkVisualizer model (get_model_name model)
          (match ax0 with Some a => a | None => gca end)
          (<["line" := default LINE_COLOR (kwargs !! "line_color")]>
             (<["test_point" :=
                  default (PyStr "g") (kwargs !! "test_color")]>
                (<["train_point" :=
                     default (PyStr "b") (kwargs !! "train_color")]> ∅)))
          kwargs).
Proof.
  intros Hr.
  destruct (ResidualsPlot.__init__ model ax0 kwargs) as [v|e] eqn:Hi.
  - destruct (residuals_init_Ok _ _ _ _ Hi) as (base & Hb & ->).
    destruct (base_init_Ok _ _ _ _ Hb) as [_ ->]. reflexivity.
  - destruct (init_total model ax0 kwargs Hr) as [_ Hok].
    rewrite Hi in Hok. discriminate Hok.
Qed.

Lemma prediction_error_init_explicit (model : E) ax0 kwargs :
  isregressor model = true ->
  PredictionError.__init__ model ax0 kwargs
  = Ok (mkVisualizer model (get_model_name model)
          (match ax0 with Some a => a | None => gca end)
          (<["line" := default LINE_COLOR (kwargs !! "line_color")]>
             (<["point" := default PyNone (kwargs !! "point_color")]> ∅))
          kwargs).
Proof.
  intros Hr.
  destruct (PredictionError.__init__ model ax0 kwargs) as [v|e] eqn:Hi.
  - destruct (prediction_error_init_Ok _ _ _ _ Hi) as (base & Hb & ->).
    destruct (base_init_Ok _ _ _ _ Hb) as [_ ->]. reflexivity.
  - destruct (init_total model ax0 kwargs Hr) as [Hok _].
    rewrite Hi in Hok. discriminate Hok.
Qed.
End Construction.

(** ** Claims about both visualizers *)

Section BothVisualizers.
Context {E : Type} `{Regressor E} `{Imports}.

(** C7: once either constructor has returned, the colour table holds
    exactly the keys of that visualizer, each bound to the colour passed
    by keyword or to its default; and no method ([fit], [score], [draw],
    [finalize]) changes the table. *)
Theorem colors_populated_and_fixed :
  (forall (model : E) ax0 kwargs self,
     PredictionError.__init__ model ax0 kwargs = Ok self ->
     dom (colors self) = ({["point"; "line"]} : gset string) /\
     colors self !! "point"
     = Some (default PyNone (kwargs !! "point_color")) /\
     colors self !! "line"
     = Some (default LINE_COLOR (kwargs !! "line_color"))) /\
  (forall (model : E) ax0 kwargs self,
     ResidualsPlot.__init__ model ax0 kwargs = Ok self ->
     dom (colors self)
     = ({["train_point"; "test_point"; "line"]} : gset string) /\
     colors self !! "train_point"
     = Some (default (PyStr "b") (kwargs !! "train_color")) /\
     colors self !! "test_point"
     = Some (default (PyStr "g") (kwargs !! "test_color")) /\
     colors self !! "line"
     = Some (default LINE_COLOR (kwargs !! "line_color"))) /\
  (forall (model : E) ax0 kwargs,
     isregressor model = true ->
     is_ok (PredictionError.__init__ model ax0 kwargs) = true /\
     is_ok (ResidualsPlot.__init__ model ax0 kwargs) = true) /\
  (forall (self self' : Visualizer E) X y kwargs,
     PredictionError.fit self X y kwargs = Ok self' ->
     colors self' = colors self) /\
  (forall (self self' : Visualizer E) X y kwargs r,
     PredictionError.score self X y kwargs = Ok (r, self') ->
     colors self' = colors self) /\
  (forall (self self' : Visualizer E) y y_pred,
     PredictionError.draw self y y_pred = Ok self' ->
     colors self' = colors self) /\
  (forall (self self' : Visualizer E),
     PredictionError.finalize self = Ok self' ->
     colors self' = colors self) /\
  (forall (self self' : Visualizer E) X y kwargs,
     ResidualsPlot.fit self X y kwargs = Ok self' ->
     colors self' = colors self) /\
  (forall (self self' : Visualizer E) X y train,
     ResidualsPlot.score self X y train = Ok self' ->
     colors self' = colors self) /\
  (forall (self self' : Visualizer E) y_pred residuals train,
     ResidualsPlot.draw self y_pred residuals train = Ok self' ->
     colors self' = colors self) /\
  (forall (self self' : Visualizer E),
     ResidualsPlot.finalize self = Ok self' ->
     colors self' = colors self).
Proof.
  split; [| split; [| split]].
  - intros model ax0 kwargs self Hi.
    destruct (prediction_error_init_Ok _ _ _ _ Hi) as (base & _ & ->).
    simpl. split; [| split].
    + rewrite !dom_insert_L, dom_empty_L. set_solver.
    + rewrite lookup_insert_ne by discriminate.
      apply lookup_insert_eq.
    + apply lookup_insert_eq.
  - intros model ax0 kwargs self Hi.
    destruct (residuals_init_Ok _ _ _ _ Hi) as (base & _ & ->).
    simpl. split; [| split; [| split]].
    + rewrite !dom_insert_L, dom_empty_L. set_solver.
    + rewrite !lookup_insert_ne by discriminate.
      apply lookup_insert_eq.
    + rewrite lookup_insert_ne by discriminate.
      apply lookup_insert_eq.
    + apply lookup_insert_eq.
  - intros model ax0 kwargs. apply init_total.
  - repeat split; intros.
    + eapply prediction_error_fit_colors; eassumption.
    + eapply prediction_error_score_colors; eassumption.
    + eapply prediction_error_draw_colors; eassumption.
    + eapply prediction_error_finalize_colors; eassumption.
    + eapply residuals_fit_colors; eassumption.
    + eapply residuals_score_colors; eassumption.
    + eapply residuals_draw_colors; eassumption.
    + eapply residuals_finalize_colors; eassumption.
Qed.

(** C10: both constructors call the base initialiser with the complete
    keyword set before they pop the colour keywords.  The base initialiser
    runs first (its type error is the constructor's), and for a regressor
    both it and the constructor return: a colour keyword that is supplied
    is among the keywords the base initialiser received and is also the
    entry of the colour table of the visualizer. *)
Theorem color_keywords_reach_base_initializer :
  (forall (model : E) ax0 kwargs,
     isregressor model = true ->
     exists base self,
       RegressionScoreVisualizer.__init__ model ax0 kwargs = Ok base /\
       base_kwargs base = kwargs /\
       PredictionError.__init__ model ax0 kwargs = Ok self /\
       base_kwargs self = kwargs /\
       (forall v, kwargs !! "point_color" = Some v ->
          base_kwargs self !! "point_color" = Some v /\
          colors self !! "point" = Some v) /\
       (forall v, kwargs !! "line_color" = Some v ->
          base_kwargs self !! "line_color" = Some v /\
          colors self !! "line" = Some v)) /\
  (forall (model : E) ax0 kwargs,
     isregressor model = true ->
     exists base self,
       RegressionScoreVisualizer.__init__ model ax0 kwargs = Ok base /\
       base_kwargs base = kwargs /\
       ResidualsPlot.__init__ model ax0 kwargs = Ok self /\
       base_kwargs self = kwargs /\
       (forall v, kwargs !! "train_color" = Some v ->
          base_kwargs self !! "train_color" = Some v /\
          colors self !! "train_point" = Some v) /\
       (forall v, kwargs !! "test_color" = Some v ->
          base_kwargs self !! "test_color" = Some v /\
          colors self !! "test_point" = Some v) /\
       (forall v, kwargs !! "line_color" = Some v ->
          base_kwargs self !! "line_color" = Some v /\
          colors self !! "line" = Some v)) /\
  (forall (model : E) ax0 kwargs,
     isregressor model = false ->
     RegressionScoreVisualizer.__init__ model ax0 kwargs
     = Raise YellowbrickTypeError /\
     PredictionError.__init__ model ax0 kwargs
     = Raise YellowbrickTypeError /\
     ResidualsPlot.__init__ model ax0 kwargs
     = Raise YellowbrickTypeError).
Proof.
  assert (Hbase : forall (model : E) ax0 kwargs,
            isregressor model = true ->
            RegressionScoreVisualizer.__init__ model ax0 kwargs
            = Ok (mkVisualizer model (get_model_name model)
                    (match ax0 with Some a => a | None => gca end) ∅
                    kwargs)).
  { intros model ax0 kwargs Hr.
    unfold RegressionScoreVisualizer.__init__. rewrite Hr. reflexivity. }
  split; [| split].
  - intros model ax0 kwargs Hr. do 2 eexists.
    split; [apply Hbase; exact Hr |]. split; [reflexivity |].
    split; [apply prediction_error_init_explicit; exact Hr |].
    split; [reflexivity |].
    split; intros v Hv; (split; [exact Hv |]); simpl; rewrite Hv; simpl.
    + rewrite lookup_insert_ne by discriminate. apply lookup_insert_eq.
    + apply lookup_insert_eq.
  - intros model ax0 kwargs Hr. do 2 eexists.
    split; [apply Hbase; exact Hr |]. split; [reflexivity |].
    split; [apply residuals_init_explicit; exact Hr |].
    split; [reflexivity |].
    split; [| split]; intros v Hv; (split; [exact Hv |]); simpl;
      rewrite Hv; simpl.
    + rewrite !lookup_insert_ne by discriminate. apply lookup_insert_eq.
    + rewrite lookup_insert_ne by discriminate. apply lookup_insert_eq.
    + apply lookup_insert_eq.
  - intros model ax0 kwargs Hr.
    unfold PredictionError.__init__, ResidualsPlot.__init__,
      RegressionScoreVisualizer.__init__.
    rewrite Hr. repeat split.
Qed.

(** C8: on both visualizers a second [finalize] leaves title, x label
    and y label as the first one set them: the text is replaced, not
    accumulated. *)
Theorem finalize_idempotent_on_text :
  (forall (self s1 : Visualizer E),
     PredictionError.finalize self = Ok s1 ->
     exists s2,
       PredictionError.finalize s1 = Ok s2 /\
       title (ax s2) = title (ax s1) /\
       xlabel (ax s2) = xlabel (ax s1) /\
       ylabel (ax s2) = ylabel (ax s1) /\
       title (ax s1) = Some ("Prediction Error for " +:+ name self) /\
       xlabel (ax s1) = Some "Measured" /\
       ylabel (ax s1) = Some "Predicted") /\
  (forall (self s1 : Visualizer E),
     ResidualsPlot.finalize self = Ok s1 ->
     exists s2,
       ResidualsPlot.finalize s1 = Ok s2 /\
       title (ax s2) = title (ax s1) /\
       xlabel (ax s2) = xlabel (ax s1) /\
       ylabel (ax s2) = ylabel (ax s1) /\
       title (ax s1)
       = Some ("Residuals for " +:+ name self +:+ " Model") /\
       xlabel (ax s1) = Some "Predicted Value" /\
       ylabel (ax s1) = Some "Residuals").
Proof.
  split; intros self s1 Hf.
  - injection Hf as <-. eexists. split; [reflexivity |].
    repeat split.
  - destruct (residuals_finalize_Ok _ _ Hf) as [line Hl].
    destruct (residuals_finalize_total self line Hl)
      as (s & Hs & _ & Hc & Hn & Ht & Hx & Hy & _).
    rewrite Hf in Hs. injection Hs as <-.
    assert (Hl1 : colors s1 !! "line" = Some line) by congruence.
    destruct (residuals_finalize_total s1 line Hl1)
      as (s2 & Hs2 & _ & _ & _ & Ht2 & Hx2 & Hy2 & _).
    exists s2. split; [exact Hs2 |].
    rewrite Ht2, Hx2, Hy2, Ht, Hx, Hy, Hn. repeat split.
Qed.

(** C6: either quick method builds its visualizer, splits the data with
    [test_size] 0.2, fits on the training part, scores on the held-out
    part, finalizes, and returns the axes of the visualizer. *)
Theorem quick_methods_lifecycle
  (model : E) (X : Matrix) (y : Vector) (ax0 : option Axes)
  (kwargs : gmap string pyval)
  (X_train X_test : Matrix) (y_train y_test : Vector) :
  train_test_split X y 0.2 = (X_train, X_test, y_train, y_test) ->
  ((forall v0 v1 r v2 v3,
      PredictionError.__init__ model ax0 kwargs = Ok v0 ->
      PredictionError.fit v0 X_train y_train kwargs = Ok v1 ->
      PredictionError.score v1 X_test y_test ∅ = Ok (r, v2) ->
      PredictionError.finalize v2 = Ok v3 ->
      prediction_error model X y ax0 kwargs = Ok (ax v3)) /\
   (forall surface,
      prediction_error model X y ax0 kwargs = Ok surface ->
      exists v0 v1 r v2 v3,
        PredictionError.__init__ model ax0 kwargs = Ok v0 /\
        PredictionError.fit v0 X_train y_train kwargs = Ok v1 /\
        PredictionError.score v1 X_test y_test ∅ = Ok (r, v2) /\
        PredictionError.finalize v2 = Ok v3 /\
        surface = ax v3)) /\
  ((forall v0 v1 v2 v3,
      ResidualsPlot.__init__ model ax0 kwargs = Ok v0 ->
      ResidualsPlot.fit v0 X_train y_train kwargs = Ok v1 ->
      ResidualsPlot.score v1 X_test y_test false = Ok v2 ->
      ResidualsPlot.finalize v2 = Ok v3 ->
      residuals_plot model X y ax0 kwargs = Ok (ax v3)) /\
   (forall surface,
      residuals_plot model X y ax0 kwargs = Ok surface ->
      exists v0 v1 v2 v3,
        ResidualsPlot.__init__ model ax0 kwargs = Ok v0 /\
        ResidualsPlot.fit v0 X_train y_train kwargs = Ok v1 /\
        ResidualsPlot.score v1 X_test y_test false = Ok v2 /\
        ResidualsPlot.finalize v2 = Ok v3 /\
        surface = ax v3)).
Proof.
  intros Hsplit. split; split.
  - intros v0 v1 r v2 v3 H0' H1' H2' H3'. unfold prediction_error.
    rewrite (bind_of_Ok _ _ _ H0'), Hsplit.
    rewrite (bind_of_Ok _ _ _ H1'), (bind_of_Ok _ _ _ H2').
    rewrite (bind_of_Ok _ _ _ H3'). reflexivity.
  - intros surface Hq. unfold prediction_error in Hq.
    apply bind_Ok in Hq. destruct Hq as (v0 & H0' & Hq).
    rewrite Hsplit in Hq.
    apply bind_Ok in Hq. destruct Hq as (v1 & H1' & Hq).
    apply bind_Ok in Hq. destruct Hq as ([r v2] & H2' & Hq).
    apply bind_Ok in Hq. destruct Hq as (v3 & H3' & Hq).
    injection Hq as <-. exists v0, v1, r, v2, v3. repeat split; assumption.
  - intros v0 v1 v2 v3 H0' H1' H2' H3'. unfold residuals_plot.
    rewrite (bind_of_Ok _ _ _ H0'), Hsplit.
    rewrite (bind_of_Ok _ _ _ H1'), (bind_of_Ok _ _ _ H2').
    rewrite (bind_of_Ok _ _ _ H3'). reflexivity.
  - intros surface Hq. unfold residuals_plot in Hq.
    apply bind_Ok in Hq. destruct Hq as (v0 & H0' & Hq).
    rewrite Hsplit in Hq.
    apply bind_Ok in Hq. destruct Hq as (v1 & H1' & Hq).
    apply bind_Ok in Hq. destruct Hq as (v2 & H2' & Hq).
    apply bind_Ok in Hq. destruct Hq as (v3 & H3' & Hq).
    injection Hq as <-. exists v0, v1, v2, v3. repeat split; assumption.
Qed.
End BothVisualizers.

(** ** The model at work on the toy estimator *)

Example toy_residuals_score :
  marks <$> (ax <$> ResidualsPlot.score Toy.viz [[5]; [6]] [4; 8] false)
  = Ok [Scatter [5; 6] [1; -2] (PyStr "g") (Some 40) (Some 1.0)].
Proof. vm_compute. reflexivity. Qed.

Example toy_prediction_error_limits :
  (fun v => (xlim (ax v), ylim (ax v)))
    <$> PredictionError.draw Toy.viz [1; 2; 3] [1.1; 2.2; 2.9]
  = Ok (Some (1 - 1, 3 + 1), Some (1.1 - 1, 2.9 + 1)).
Proof. vm_compute. reflexivity. Qed.

Example toy_empty_target_raises :
  PredictionError.score Toy.viz [] [] ∅ = Raise ValueError.
Proof. vm_compute. reflexivity. Qed.

Lemma prediction_error_score_witness :
  exists self',
    PredictionError.score Toy.viz [[1]; [2]; [3]] [1; 2; 3] ∅
    = Ok (0.9, self').
Proof.
  destruct (prediction_error_score_returns_estimator_score
              Toy.viz [[1]; [2]; [3]] [1; 2; 3] ∅) as [_ Hw].
  destruct (Hw [1; 2; 3] 0.9 PyNone (PyStr "#111111")) as (s & _ & Hs).
  - reflexivity.
  - reflexivity.
  - discriminate.
  - reflexivity.
  - vm_compute. reflexivity.
  - vm_compute. reflexivity.
  - exists s. exact Hs.
Defined.

Lemma prediction_error_draw_limits_witness :
  exists self' lo hi plo phi,
    PredictionError.draw Toy.viz [1; 2; 3] [1.1; 2.2; 2.9] = Ok self' /\
    is_min lo [1; 2; 3] /\ is_max hi [1; 2; 3] /\
    is_min plo [1.1; 2.2; 2.9] /\ is_max phi [1.1; 2.2; 2.9] /\
    xlim (ax self') = Some (lo - 1, hi + 1) /\
    ylim (ax self') = Some (plo - 1, phi + 1).
Proof.
  apply (prediction_error_draw_limits Toy.viz [1; 2; 3] [1.1; 2.2; 2.9]
           PyNone (PyStr "#111111")).
  - discriminate.
  - discriminate.
  - reflexivity.
  - vm_compute. reflexivity.
  - vm_compute. reflexivity.
Defined.

Lemma residuals_score_points_witness :
  exists residuals self',
    ResidualsPlot.score Toy.viz [[5]; [6]] [4; 8] false = Ok self' /\
    residuals = [1; -2] /\
    points (Scatter [5; 6] residuals (PyStr "g") (Some 40) (Some 1.0))
    = [(5, 1); (6, -2)].
Proof.
  destruct (residuals_score_points Toy.viz [[5]; [6]] [4; 8] [5; 6] false
              (PyStr "g"))
    as (residuals & self' & _ & _ & Hs & _ & _ & _ & Hex).
  - reflexivity.
  - reflexivity.
  - vm_compute. reflexivity.
  - destruct Hex as [Hr Hp]; [reflexivity | reflexivity |].
    exists residuals, self'. split; [exact Hs |]. split; [exact Hr |].
    exact Hp.
Defined.

Lemma residuals_fit_draws_training_first_witness :
  exists self1 self2,
    ResidualsPlot.fit Toy.viz [[5]; [6]] [4; 8] ∅ = Ok self1 /\
    ResidualsPlot.score self1 [[3]] [2] false = Ok self2 /\
    marks (ax self2)
    = [Scatter [5; 6] [5 - 4; 6 - 8] (PyStr "b") (Some 40) (Some 0.5);
       Scatter [3] [3 - 2] (PyStr "g") (Some 40) (Some 1.0)].
Proof.
  destruct (residuals_fit_draws_training_first Toy.viz [[5]; [6]] [4; 8] ∅
              Toy.Fitted [5; 6] (PyStr "b"))
    as (self1 & Hf & _ & _ & Hnext).
  - reflexivity.
  - reflexivity.
  - reflexivity.
  - vm_compute. reflexivity.
  - destruct (Hnext [[3]] [2] [3] (PyStr "g")) as (self2 & Hs & Hm).
    + reflexivity.
    + reflexivity.
    + vm_compute. reflexivity.
    + exists self1, self2. split; [exact Hf |]. split; [exact Hs |].
      exact Hm.
Defined.

Lemma residuals_draw_color_opacity_witness :
  (exists self',
     ResidualsPlot.draw Toy.viz [5; 6] [1; -2] true = Ok self' /\
     marks (ax self')
     = [Scatter [5; 6] [1; -2] (PyStr "b") (Some 40) (Some 0.5)]) /\
  (exists self',
     ResidualsPlot.draw Toy.viz [5; 6] [1; -2] false = Ok self' /\
     marks (ax self')
     = [Scatter [5; 6] [1; -2] (PyStr "g") (Some 40) (Some 1.0)]).
Proof.
  apply (residuals_draw_color_opacity Toy.viz [5; 6] [1; -2]
           (PyStr "b") (PyStr "g")).
  - vm_compute. reflexivity.
  - vm_compute. reflexivity.
  - reflexivity.
Defined.

Lemma residuals_finalize_appends_hline_witness :
  exists self',
    iterate ResidualsPlot.finalize 3 Toy.viz = Ok self' /\
    marks (ax self') = replicate 3 (HLine 0 (PyStr "#111111")) /\
    length (List.filter is_hline (marks (ax self'))) = 3%nat.
Proof.
  apply (residuals_finalize_appends_hline Toy.viz (PyStr "#111111") 3).
  vm_compute. reflexivity.
Defined.

Lemma colors_populated_and_fixed_witness :
  exists self,
    PredictionError.__init__ Toy.Fitted None
      (<["point_color" := PyStr "r"]> ∅) = Ok self /\
    colors self !! "point" = Some (PyStr "r") /\
    colors self !! "line" = Some (PyStr "#111111").
Proof.
  destruct (PredictionError.__init__ Toy.Fitted None
              (<["point_color" := PyStr "r"]> ∅)) as [self|e] eqn:Hi.
  - destruct (colors_populated_and_fixed (E:=Toy.model)) as [Hpe _].
    destruct (Hpe _ _ _ _ Hi) as (_ & Hp & Hl).
    exists self. split; [reflexivity |]. split; [exact Hp | exact Hl].
  - vm_compute in Hi. discriminate Hi.
Defined.

Lemma color_keywords_reach_base_initializer_witness :
  (exists self,
     PredictionError.__init__ Toy.Fitted None
       (<["point_color" := PyStr "r"]> ∅) = Ok self /\
     base_kwargs self !! "point_color" = Some (PyStr "r") /\
     colors self !! "point" = Some (PyStr "r")) /\
  (exists self,
     ResidualsPlot.__init__ Toy.Fitted None
       (<["train_color" := PyStr "r"]> ∅) = Ok self /\
     base_kwargs self !! "train_color" = Some (PyStr "r") /\
     colors self !! "train_point" = Some (PyStr "r")) /\
  PredictionError.__init__ Toy.Classifier None
    (<["point_color" := PyStr "r"]> ∅) = Raise YellowbrickTypeError.
Proof.
  destruct (color_keywords_reach_base_initializer (E:=Toy.model))
    as (Hpe & Hrp & Hbad).
  split; [| split].
  - destruct (Hpe Toy.Fitted None (<["point_color" := PyStr "r"]> ∅))
      as (base & self & _ & _ & Hi & _ & Hp & _); [reflexivity |].
    exists self. split; [exact Hi |]. apply Hp.
    vm_compute. reflexivity.
  - destruct (Hrp Toy.Fitted None (<["train_color" := PyStr "r"]> ∅))
      as (base & self & _ & _ & Hi & _ & Ht & _); [reflexivity |].
    exists self. split; [exact Hi |]. apply Ht.
    vm_compute. reflexivity.
  - apply (Hbad Toy.Classifier None (<["point_color" := PyStr "r"]> ∅)).
    reflexivity.
Defined.

Lemma finalize_idempotent_on_text_witness :
  exists s1 s2,
    ResidualsPlot.finalize Toy.viz = Ok s1 /\
    ResidualsPlot.finalize s1 = Ok s2 /\
    title (ax s2) = title (ax s1) /\
    xlabel (ax s2) = xlabel (ax s1) /\
    ylabel (ax s2) = ylabel (ax s1).
Proof.
  destruct (ResidualsPlot.finalize Toy.viz) as [s1|e] eqn:Hf.
  - destruct (finalize_idempotent_on_text (E:=Toy.model)) as [_ Hrp].
    destruct (Hrp _ _ Hf) as (s2 & Hf2 & Ht & Hx & Hy & _).
    exists s1, s2. repeat split; assumption.
  - vm_compute in Hf. discriminate Hf.
Defined.

Lemma quick_methods_lifecycle_witness :
  (exists v3 : Visualizer Toy.model,
     prediction_error Toy.Fitted [[1]; [2]; [3]] [1; 2; 4] None ∅
     = Ok (ax v3) /\
     title (ax v3) = Some "Prediction Error for Toy") /\
  (exists v3 : Visualizer Toy.model,
     residuals_plot Toy.Fitted [[1]; [2]; [3]] [1; 2; 4] None ∅
     = Ok (ax v3) /\
     title (ax v3) = Some "Residuals for Toy Model").
Proof.
  destruct (quick_methods_lifecycle Toy.Fitted [[1]; [2]; [3]] [1; 2; 4]
              None ∅ [[1]; [2]] [[3]] [1; 2] [4])
    as [[Hpe _] [Hrp _]].
  - reflexivity.
  - split; eexists; (split; [| shelve]).
    + eapply Hpe; reflexivity.
    + eapply Hrp; reflexivity.
    Unshelve. all: reflexivity.
Defined.

Example toy_residuals_plot :
  marks <$> residuals_plot Toy.Fitted [[1]; [2]; [3]] [1; 2; 4] None ∅
  = Ok [Scatter [1; 2] [1 - 1; 2 - 2] (PyStr "b") (Some 40) (Some 0.5);
        Scatter [3] [3 - 4] (PyStr "g") (Some 40) (Some 1.0);
        HLine 0 (PyStr "#111111")].
Proof. vm_compute. reflexivity. Qed.

(** ** Further properties: PredictionError *)

Section PredictionErrorMore.
Context {E : Type} `{Regressor E} `{Imports}.

Lemma np_min_Ok a m : np_min a = Ok m -> is_min m a.
Proof.
  destruct a as [|x l]; [discriminate |].
  intros [= <-]. apply fold_Qmin_spec.
Qed.

Lemma np_max_Ok a m : np_max a = Ok m -> is_max m a.
Proof.
  destruct a as [|x l]; [discriminate |].
  intros [= <-]. apply fold_Qmax_spec.
Qed.

Lemma ax_scatter_mismatch x y c s alpha a :
  length x <> length y -> ax_scatter x y c s alpha a = Raise ValueError.
Proof.
  intros Hl. unfold ax_scatter.
  destruct (Nat.eqb_spec (length x) (length y)); [contradiction | reflexivity].
Qed.

(** [PredictionError.draw] returns exactly on a non-empty target array
    that is as long as the predictions; on an empty target, or on arrays
    of different lengths, it raises [ValueError], and so does [score],
    which then never reports the estimator's score. *)
Theorem prediction_error_draw_returns_iff
  (self : Visualizer E) (y y_pred : Vector) (point line : pyval) :
  colors self !! "point" = Some point ->
  colors self !! "line" = Some line ->
  (y <> [] /\ length y = length y_pred ->
   exists self', PredictionError.draw self y y_pred = Ok self') /\
  (y = [] \/ length y <> length y_pred ->
   PredictionError.draw self y y_pred = Raise ValueError /\
   forall X kwargs,
     est_predict (estimator self) X = Ok y_pred ->
     PredictionError.score self X y kwargs = Raise ValueError).
Proof.
  intros Hp Hl. split.
  - intros [Hne Hlen].
    apply (prediction_error_draw_total self y y_pred point line);
      assumption.
  - intros Hbad.
    assert (Hd : PredictionError.draw self y y_pred = Raise ValueError).
    { unfold PredictionError.draw.
      rewrite (dict_get_Some _ _ _ Hp). simpl.
      destruct (Nat.eq_dec (length y) (length y_pred)) as [Heq | Hneq].
      - destruct Hbad as [-> | Hneq]; [| contradiction].
        rewrite (ax_scatter_same_length _ _ _ _ _ _ Heq). simpl.
        rewrite (dict_get_Some _ _ _ Hl). reflexivity.
      - rewrite (ax_scatter_mismatch _ _ _ _ _ _ Hneq). reflexivity. }
    split; [exact Hd |].
    intros X kwargs Hpred.
    unfold PredictionError.score, RegressionScoreVisualizer.predict.
    rewrite Hpred. simpl. rewrite Hd. reflexivity.
Qed.


(** The ranges [PredictionError.draw] sets depend on the arrays of that
    call alone: an earlier series does not widen them, so after two draws
    the ranges are those of the second series. *)
Theorem prediction_error_limits_follow_last_draw
  (self s1 s2 other other' : Visualizer E) (y1 p1 y2 p2 : Vector) :
  PredictionError.draw self y1 p1 = Ok s1 ->
  PredictionError.draw s1 y2 p2 = Ok s2 ->
  PredictionError.draw other y2 p2 = Ok other' ->
  xlim (ax s2) = xlim (ax other') /\ ylim (ax s2) = ylim (ax other').
Proof.
  intros _ H2 H3.
  destruct (prediction_error_draw_Ok _ _ _ _ H2)
    as (? & ? & lo & hi & plo & phi & _ & _ & _ & Hlo & Hhi & Hplo & Hphi
        & ->).
  destruct (prediction_error_draw_Ok _ _ _ _ H3)
    as (? & ? & lo' & hi' & plo' & phi' & _ & _ & _ & Hlo' & Hhi' & Hplo'
        & Hphi' & ->).
  simpl. split; congruence.
Qed.

(** Each call of [PredictionError.draw] draws the best-fit line anew:
    [k] calls on the same arrays leave [k] scatter series and [k] best-fit
    lines, in alternation, after what was on the axes. *)
Theorem prediction_error_draw_redraws_best_fit
  (self : Visualizer E) (y y_pred : Vector) (point line : pyval) (k : nat) :
  colors self !! "point" = Some point ->
  colors self !! "line" = Some line ->
  y <> [] ->
  length y = length y_pred ->
  exists self',
    iterate (fun s => PredictionError.draw s y y_pred) k self = Ok self' /\
    marks (ax self')
    = marks (ax self)
      ++ concat (replicate k
                   [Scatter y y_pred point None None;
                    BestFit y y_pred "linear" "--" 2 line]) /\
    length (List.filter is_bestfit (marks (ax self')))
    = (length (List.filter is_bestfit (marks (ax self))) + k)%nat.
Proof.
  intros Hp Hl Hne Hlen.
  assert (Hgen : exists self',
    iterate (fun s => PredictionError.draw s y y_pred) k self = Ok self' /\
    marks (ax self')
    = marks (ax self)
      ++ concat (replicate k
                   [Scatter y y_pred point None None;
                    BestFit y y_pred "linear" "--" 2 line])).
  { revert self Hp Hl. induction k as [|k IH]; intros self Hp Hl.
    - exists self. split; [reflexivity |]. simpl.
      rewrite app_nil_r. reflexivity.
    - destruct (prediction_error_draw_total self y y_pred point line)
        as [s1 Hd]; auto.
      destruct (prediction_error_draw_Ok _ _ _ _ Hd)
        as (p & l & ? & ? & ? & ? & Hp' & Hl' & _ & _ & _ & _ & _ & Heq).
      rewrite Hp in Hp'. rewrite Hl in Hl'.
      injection Hp' as <-. injection Hl' as <-.
      destruct (IH s1) as (s2 & Hi & Hm).
      { subst s1. exact Hp. }
      { subst s1. exact Hl. }
      exists s2. split.
      + simpl. rewrite Hd. simpl. exact Hi.
      + rewrite Hm. subst s1. simpl. rewrite <- !app_assoc. reflexivity. }
  destruct Hgen as (self' & Hi & Hm). exists self'.
  split; [exact Hi |]. split; [exact Hm |].
  rewrite Hm, List.filter_app, length_app. f_equal.
  clear. induction k as [|k IH]; simpl; [reflexivity | now rewrite IH].
Qed.
End PredictionErrorMore.

(** ** Further properties: ResidualsPlot *)

Section ResidualsPlotMore.
Context {E : Type} `{Regressor E} `{Imports}.

(** [ResidualsPlot.score] does not insist on targets as long as the
    predictions: a one-element target array is broadcast against all the
    predictions and the series is drawn; with any other length mismatch
    [score] raises [ValueError]. *)
Theorem residuals_score_returns_iff
  (self : Visualizer E) (X : Matrix) (y y_pred : Vector) (train : bool)
  (color : pyval) :
  est_predict (estimator self) X = Ok y_pred ->
  colors self !! point_key train = Some color ->
  (length y_pred = length y \/ length y = 1%nat ->
   exists self', ResidualsPlot.score self X y train = Ok self') /\
  (forall t,
     y = [t] ->
     exists self',
       ResidualsPlot.score self X y train = Ok self' /\
       marks (ax self')
       = marks (ax self)
         ++ [Scatter y_pred (map (fun p => p - t) y_pred) color (Some 40)
               (Some (opacity train))]) /\
  (length y_pred <> length y -> length y <> 1%nat ->
   ResidualsPlot.score self X y train = Raise ValueError).
Proof.
  intros Hpred Hc.
  assert (Hone : forall t, y = [t] ->
    ResidualsPlot.score self X y train
    = Ok (set_ax
            (add_mark
               (Scatter y_pred (map (fun p => p - t) y_pred) color
                  (Some 40) (Some (opacity train)))
               (ax self))
            self)).
  { intros t ->.
    unfold ResidualsPlot.score, RegressionScoreVisualizer.predict.
    rewrite Hpred. simpl.
    assert (Hs : np_sub y_pred [t] = Ok (map (fun p => p - t) y_pred)).
    { unfold np_sub. destruct y_pred as [|a [|b l]]; try reflexivity. }
    rewrite Hs. simpl. apply residuals_draw_total; [exact Hc |].
    rewrite length_map. reflexivity. }
  split; [| split].
  - intros [Hlen | Hlen].
    + eexists. eapply residuals_score_total; eassumption.
    + destruct y as [|t [|u l]]; try discriminate.
      eexists. apply (Hone t). reflexivity.
  - intros t Ht. eexists. split; [apply (Hone t Ht) | reflexivity].
  - intros Hneq Hn1.
    unfold ResidualsPlot.score, RegressionScoreVisualizer.predict.
    rewrite Hpred. simpl. unfold np_sub.
    destruct (Nat.eqb_spec (length y_pred) (length y)); [contradiction |].
    destruct y_pred as [|a [|b l]].
    + destruct y as [|t [|u l']]; try reflexivity.
      contradiction Hn1. reflexivity.
    + simpl. unfold ResidualsPlot.draw.
      destruct train; simpl in Hc; rewrite (dict_get_Some _ _ _ Hc); simpl;
        rewrite ax_scatter_mismatch; try reflexivity;
        rewrite length_map; simpl in *; congruence.
    + destruct y as [|t [|u l']]; try reflexivity.
      contradiction Hn1. reflexivity.
Qed.

(** The residuals are prediction minus target: a point of the series lies
    above the zero line exactly when the model predicted more than the
    target, below when it predicted less, and on it when they agree. *)
Theorem residuals_sign_convention
  (self self' : Visualizer E) (X : Matrix) (y y_pred : Vector)
  (train : bool) :
  est_predict (estimator self) X = Ok y_pred ->
  length y_pred = length y ->
  ResidualsPlot.score self X y train = Ok self' ->
  exists residuals color s alpha,
    marks (ax self')
    = marks (ax self) ++ [Scatter y_pred residuals color s alpha] /\
    length residuals = length y /\
    forall i p t r,
      y_pred !! i = Some p -> y !! i = Some t -> residuals !! i = Some r ->
      (0 < r <-> t < p) /\ (r < 0 <-> p < t) /\ (r == 0 <-> p == t).
Proof.
  intros Hpred Hlen Hs.
  unfold ResidualsPlot.score, RegressionScoreVisualizer.predict in Hs.
  rewrite Hpred in Hs. simpl in Hs.
  rewrite (np_sub_same_length _ _ Hlen) in Hs. simpl in Hs.
  destruct (residuals_draw_Ok _ _ _ _ _ Hs) as (color & _ & Hl & ->).
  exists (zip_with Qminus y_pred y), color, (Some 40),
    (Some (opacity train)).
  split; [reflexivity |]. split; [congruence |].
  intros i p t r Hp Ht Hr.
  rewrite lookup_zip_with, Hp, Ht in Hr. simpl in Hr.
  injection Hr as <-. repeat split; intros; lra.
Qed.
End ResidualsPlotMore.

(** ** Further properties: what the methods leave alone *)

Section Frames.
Context {E : Type} `{Regressor E} `{Imports}.

Lemma prediction_error_fit_Ok (self self' : Visualizer E) X y kw :
  PredictionError.fit self X y kw = Ok self' ->
  exists fitted,
    est_fit (estimator self) X y kw = Ok fitted /\
    self' = set_estimator fitted self.
Proof.
  unfold PredictionError.fit, RegressionScoreVisualizer.fit.
  intros Hf. inv_result. subst self'. eexists. split; [eassumption |].
  reflexivity.
Qed.

Lemma prediction_error_score_Ok (self self' : Visualizer E) X y kw r :
  PredictionError.score self X y kw = Ok (r, self') ->
  exists y_pred, PredictionError.draw self y y_pred = Ok self'.
Proof.
  unfold PredictionError.score. intros Hs. inv_result. subst.
  eexists. eassumption.
Qed.

Lemma residuals_score_Ok (self self' : Visualizer E) X y train :
  ResidualsPlot.score self X y train = Ok self' ->
  exists y_pred residuals,
    ResidualsPlot.draw self y_pred residuals train = Ok self'.
Proof.
  unfold ResidualsPlot.score. intros Hs. inv_result.
  do 2 eexists. eassumption.
Qed.

Lemma residuals_fit_Ok (self self' : Visualizer E) X y kw :
  ResidualsPlot.fit self X y kw = Ok self' ->
  exists fitted,
    est_fit (estimator self) X y kw = Ok fitted /\
    ResidualsPlot.score (set_estimator fitted self) X y true = Ok self'.
Proof.
  unfold ResidualsPlot.fit, RegressionScoreVisualizer.fit.
  intros Hf. inv_result. subst. eexists. split; eassumption.
Qed.

Lemma residuals_finalize_explicit (self : Visualizer E) (line : pyval) :
  colors self !! "line" = Some line ->
  ResidualsPlot.finalize self
  = Ok (set_ax
          (mkAxes (marks (ax self) ++ [HLine 0 line])
             (Some ("Residuals for " +:+ name self +:+ " Model"))
             (Some "Predicted Value") (Some "Residuals")
             (xlim (ax self)) (ylim (ax self))
             (Some (mkLegend ["Training Data"; "Test Data"] "best" true)))
          self).
Proof.
  intros Hl. unfold ResidualsPlot.finalize. simpl.
  rewrite (dict_get_Some _ _ _ Hl). reflexivity.
Qed.

(** No method erases what is on the axes: the marks before a call are a
    prefix of the marks after it. *)
Theorem marks_only_accumulate :
  (forall (self self' : Visualizer E) X y kwargs,
     PredictionError.fit self X y kwargs = Ok self' ->
     marks (ax self) `prefix_of` marks (ax self')) /\
  (forall (self self' : Visualizer E) X y kwargs r,
     PredictionError.score self X y kwargs = Ok (r, self') ->
     marks (ax self) `prefix_of` marks (ax self')) /\
  (forall (self self' : Visualizer E) y y_pred,
     PredictionError.draw self y y_pred = Ok self' ->
     marks (ax self) `prefix_of` marks (ax self')) /\
  (forall (self self' : Visualizer E),
     PredictionError.finalize self = Ok self' ->
     marks (ax self) `prefix_of` marks (ax self')) /\
  (forall (self self' : Visualizer E) X y kwargs,
     ResidualsPlot.fit self X y kwargs = Ok self' ->
     marks (ax self) `prefix_of` marks (ax self')) /\
  (forall (self self' : Visualizer E) X y train,
     ResidualsPlot.score self X y train = Ok self' ->
     marks (ax self) `prefix_of` marks (ax self')) /\
  (forall (self self' : Visualizer E) y_pred residuals train,
     ResidualsPlot.draw self y_pred residuals train = Ok self' ->
     marks (ax self) `prefix_of` marks (ax self')) /\
  (forall (self self' : Visualizer E),
     ResidualsPlot.finalize self = Ok self' ->
     marks (ax self) `prefix_of` marks (ax self')).
Proof.
  assert (Hpd : forall (self self' : Visualizer E) y y_pred,
                  PredictionError.draw self y y_pred = Ok self' ->
                  marks (ax self) `prefix_of` marks (ax self')).
  { intros self self' y y_pred Hd.
    destruct (prediction_error_draw_Ok _ _ _ _ Hd)
      as (? & ? & ? & ? & ? & ? & _ & _ & _ & _ & _ & _ & _ & ->).
    simpl. rewrite <- app_assoc. apply prefix_app_r. reflexivity. }
  assert (Hrd : forall (self self' : Visualizer E) y_pred res train,
                  ResidualsPlot.draw self y_pred res train = Ok self' ->
                  marks (ax self) `prefix_of` marks (ax self')).
  { intros self self' y_pred res train Hd.
    destruct (residuals_draw_Ok _ _ _ _ _ Hd) as (? & _ & _ & ->).
    simpl. apply prefix_app_r. reflexivity. }
  assert (Hrs : forall (self self' : Visualizer E) X y train,
                  ResidualsPlot.score self X y train = Ok self' ->
                  marks (ax self) `prefix_of` marks (ax self')).
  { intros self self' X y train Hs.
    destruct (residuals_score_Ok _ _ _ _ _ Hs) as (? & ? & Hd).
    eapply Hrd. exact Hd. }
  repeat split.
  - intros self self' X y kw Hf.
    destruct (prediction_error_fit_Ok _ _ _ _ _ Hf) as (? & _ & ->).
    reflexivity.
  - intros self self' X y kw r Hs.
    destruct (prediction_error_score_Ok _ _ _ _ _ _ Hs) as (? & Hd).
    eapply Hpd. exact Hd.
  - exact Hpd.
  - intros self self' [= <-]. reflexivity.
  - intros self self' X y kw Hf.
    destruct (residuals_fit_Ok _ _ _ _ _ Hf) as (fitted & _ & Hs).
    apply Hrs in Hs. exact Hs.
  - exact Hrs.
  - exact Hrd.
  - intros self self' Hf.
    destruct (residuals_finalize_Ok _ _ Hf) as [line Hl].
    rewrite (residuals_finalize_explicit self line Hl) in Hf.
    injection Hf as <-. simpl. apply prefix_app_r. reflexivity.
Qed.

(** Drawing and decoration are kept apart.  The scoring side ([fit],
    [score], [draw]) writes no title, label or legend, and [score] and
    [draw] leave the estimator as it is; [PredictionError.fit] does not
    touch the axes.  [PredictionError.finalize] draws nothing and keeps the
    legend; neither [finalize] refits the estimator. *)
Theorem drawing_and_decoration_are_separate :
  (forall (self self' : Visualizer E) X y kwargs,
     PredictionError.fit self X y kwargs = Ok self' ->
     ax self' = ax self) /\
  (forall (self self' : Visualizer E) y y_pred,
     PredictionError.draw self y y_pred = Ok self' ->
     texts (ax self') = texts (ax self) /\
     estimator self' = estimator self) /\
  (forall (self self' : Visualizer E) X y kwargs r,
     PredictionError.score self X y kwargs = Ok (r, self') ->
     texts (ax self') = texts (ax self) /\
     estimator self' = estimator self) /\
  (forall (self self' : Visualizer E),
     PredictionError.finalize self = Ok self' ->
     marks (ax self') = marks (ax self) /\
     legend (ax self') = legend (ax self) /\
     estimator self' = estimator self) /\
  (forall (self self' : Visualizer E) y_pred residuals train,
     ResidualsPlot.draw self y_pred residuals train = Ok self' ->
     texts (ax self') = texts (ax self) /\
     estimator self' = estimator self) /\
  (forall (self self' : Visualizer E) X y train,
     ResidualsPlot.score self X y train = Ok self' ->
     texts (ax self') = texts (ax self) /\
     estimator self' = estimator self) /\
  (forall (self self' : Visualizer E) X y kwargs,
     ResidualsPlot.fit self X y kwargs = Ok self' ->
     texts (ax self') = texts (ax self)) /\
  (forall (self self' : Visualizer E),
     ResidualsPlot.finalize self = Ok self' ->
     estimator self' = estimator self).
Proof.
  assert (Hpd : forall (self self' : Visualizer E) y y_pred,
                  PredictionError.draw self y y_pred = Ok self' ->
                  texts (ax self') = texts (ax self) /\
                  estimator self' = estimator self).
  { intros self self' y y_pred Hd.
    destruct (prediction_error_draw_Ok _ _ _ _ Hd)
      as (? & ? & ? & ? & ? & ? & _ & _ & _ & _ & _ & _ & _ & ->).
    split; reflexivity. }
  assert (Hrd : forall (self self' : Visualizer E) y_pred res train,
                  ResidualsPlot.draw self y_pred res train = Ok self' ->
                  texts (ax self') = texts (ax self) /\
                  estimator self' = estimator self).
  { intros self self' y_pred res train Hd.
    destruct (residuals_draw_Ok _ _ _ _ _ Hd) as (? & _ & _ & ->).
    split; reflexivity. }
  assert (Hrs : forall (self self' : Visualizer E) X y train,
                  ResidualsPlot.score self X y train = Ok self' ->
                  texts (ax self') = texts (ax self) /\
                  estimator self' = estimator self).
  { intros self self' X y train Hs.
    destruct (residuals_score_Ok _ _ _ _ _ Hs) as (? & ? & Hd).
    eapply Hrd. exact Hd. }
  split; [| split; [| split; [| split; [| split; [| split; [| split]]]]]].
  - intros self self' X y kw Hf.
    destruct (prediction_error_fit_Ok _ _ _ _ _ Hf) as (? & _ & ->).
    reflexivity.
  - exact Hpd.
  - intros self self' X y kw r Hs.
    destruct (prediction_error_score_Ok _ _ _ _ _ _ Hs) as (? & Hd).
    eapply Hpd. exact Hd.
  - intros self self' [= <-]. repeat split.
  - exact Hrd.
  - exact Hrs.
  - intros self self' X y kw Hf.
    destruct (residuals_fit_Ok _ _ _ _ _ Hf) as (fitted & _ & Hs).
    destruct (Hrs _ _ _ _ _ Hs) as (Ht & _). exact Ht.
  - intros self self' Hf.
    destruct (residuals_finalize_Ok _ _ Hf) as [line Hl].
    rewrite (residuals_finalize_explicit self line Hl) in Hf.
    injection Hf as <-. reflexivity.
Qed.
End Frames.

(** ** Further properties: lifecycles and the quick methods *)

Section LifecycleProps.
Context {E : Type} `{Regressor E} `{Imports}.

Lemma prediction_error_static (self self' : Visualizer E) :
  (forall X y kw, PredictionError.fit self X y kw = Ok self' ->
                  static self' = static self) /\
  (forall X y kw r, PredictionError.score self X y kw = Ok (r, self') ->
                    static self' = static self) /\
  (forall y y_pred, PredictionError.draw self y y_pred = Ok self' ->
                    static self' = static self) /\
  (PredictionError.finalize self = Ok self' -> static self' = static self).
Proof.
  assert (Hd : forall y y_pred,
            PredictionError.draw self y y_pred = Ok self' ->
            static self' = static self).
  { intros y y_pred Hd.
    destruct (prediction_error_draw_Ok _ _ _ _ Hd)
      as (? & ? & ? & ? & ? & ? & _ & _ & _ & _ & _ & _ & _ & ->).
    reflexivity. }
  repeat split.
  - intros X y kw Hf.
    destruct (prediction_error_fit_Ok _ _ _ _ _ Hf) as (? & _ & ->).
    reflexivity.
  - intros X y kw r Hs.
    destruct (prediction_error_score_Ok _ _ _ _ _ _ Hs) as (? & Hd').
    eapply Hd. exact Hd'.
  - exact Hd.
  - intros [= <-]. reflexivity.
Qed.

Lemma residuals_static (self self' : Visualizer E) :
  (forall X y kw, ResidualsPlot.fit self X y kw = Ok self' ->
                  static self' = static self) /\
  (forall X y train, ResidualsPlot.score self X y train = Ok self' ->
                     static self' = static self) /\
  (forall y_pred res train,
     ResidualsPlot.draw self y_pred res train = Ok self' ->
     static self' = static self) /\
  (ResidualsPlot.finalize self = Ok self' -> static self' = static self).
Proof.
  assert (Hd : forall (s s' : Visualizer E) y_pred res train,
            ResidualsPlot.draw s y_pred res train = Ok s' ->
            static s' = static s).
  { intros s s' y_pred res train Hd.
    destruct (residuals_draw_Ok _ _ _ _ _ Hd) as (? & _ & _ & ->).
    reflexivity. }
  assert (Hs : forall (s s' : Visualizer E) X y train,
            ResidualsPlot.score s X y train = Ok s' ->
            static s' = static s).
  { intros s s' X y train Hs.
    destruct (residuals_score_Ok _ _ _ _ _ Hs) as (? & ? & Hd').
    eapply Hd. exact Hd'. }
  repeat split.
  - intros X y kw Hf.
    destruct (residuals_fit_Ok _ _ _ _ _ Hf) as (fitted & _ & Hs').
    apply Hs in Hs'. exact Hs'.
  - apply Hs.
  - apply Hd.
  - intros Hf. destruct (residuals_finalize_Ok _ _ Hf) as [line Hl].
    rewrite (residuals_finalize_explicit self line Hl) in Hf.
    injection Hf as <-. reflexivity.
Qed.

Lemma pe_reachable_static (model : E) kwargs self :
  pe_reachable model kwargs self ->
  static self
  = (<["line" := default LINE_COLOR (kwargs !! "line_color")]>
       (<["point" := default PyNone (kwargs !! "point_color")]> ∅),
     get_model_name model, kwargs).
Proof.
  induction 1 as [ax0 self Hi | self X y kw self' _ IH Hf
                 | self X y kw r self' _ IH Hs | self y y_pred self' _ IH Hd
                 | self self' _ IH Hf].
  - destruct (prediction_error_init_Ok _ _ _ _ Hi) as (base & Hb & ->).
    destruct (base_init_Ok _ _ _ _ Hb) as [_ ->]. reflexivity.
  - rewrite <- IH. eapply (proj1 (prediction_error_static _ _)). exact Hf.
  - rewrite <- IH.
    eapply (proj1 (proj2 (prediction_error_static _ _))). exact Hs.
  - rewrite <- IH.
    eapply (proj1 (proj2 (proj2 (prediction_error_static _ _)))). exact Hd.
  - rewrite <- IH.
    eapply (proj2 (proj2 (proj2 (prediction_error_static _ _)))). exact Hf.
Qed.

Lemma rp_reachable_static (model : E) kwargs self :
  rp_reachable model kwargs self ->
  static self
  = (<["line" := default LINE_COLOR (kwargs !! "line_color")]>
       (<["test_point" := default (PyStr "g") (kwargs !! "test_color")]>
          (<["train_point" :=
               default (PyStr "b") (kwargs !! "train_color")]> ∅)),
     get_model_name model, kwargs).
Proof.
  induction 1 as [ax0 self Hi | self X y kw self' _ IH Hf
                 | self X y train self' _ IH Hs
                 | self y_pred res train self' _ IH Hd
                 | self self' _ IH Hf].
  - destruct (residuals_init_Ok _ _ _ _ Hi) as (base & Hb & ->).
    destruct (base_init_Ok _ _ _ _ Hb) as [_ ->]. reflexivity.
  - rewrite <- IH. eapply (proj1 (residuals_static _ _)). exact Hf.
  - rewrite <- IH.
    eapply (proj1 (proj2 (residuals_static _ _))). exact Hs.
  - rewrite <- IH.
    eapply (proj1 (proj2 (proj2 (residuals_static _ _)))). exact Hd.
  - rewrite <- IH.
    eapply (proj2 (proj2 (proj2 (residuals_static _ _)))). exact Hf.
Qed.

(** Whatever sequence of [fit], [score], [draw] and [finalize] calls a
    visualizer has been through since its construction, its colour table
    and display name are those of the construction: [draw] never raises
    [KeyError], and [finalize] returns, with the title of the estimator
    the visualizer was built around and (on [ResidualsPlot]) the zero line
    in the line colour chosen at construction. *)
Theorem lifecycle_keeps_construction_attributes :
  (forall (model : E) kwargs self,
     pe_reachable model kwargs self ->
     colors self !! "point"
     = Some (default PyNone (kwargs !! "point_color")) /\
     colors self !! "line"
     = Some (default LINE_COLOR (kwargs !! "line_color")) /\
     (forall y y_pred k,
        PredictionError.draw self y y_pred <> Raise (KeyError k)) /\
     exists self',
       PredictionError.finalize self = Ok self' /\
       title (ax self')
       = Some ("Prediction Error for " +:+ get_model_name model)) /\
  (forall (model : E) kwargs self,
     rp_reachable model kwargs self ->
     colors self !! "train_point"
     = Some (default (PyStr "b") (kwargs !! "train_color")) /\
     colors self !! "test_point"
     = Some (default (PyStr "g") (kwargs !! "test_color")) /\
     colors self !! "line"
     = Some (default LINE_COLOR (kwargs !! "line_color")) /\
     (forall y_pred residuals train k,
        ResidualsPlot.draw self y_pred residuals train
        <> Raise (KeyError k)) /\
     exists self',
       ResidualsPlot.finalize self = Ok self' /\
       title (ax self')
       = Some ("Residuals for " +:+ get_model_name model +:+ " Model") /\
       marks (ax self')
       = marks (ax self)
         ++ [HLine 0 (default LINE_COLOR (kwargs !! "line_color"))]).
Proof.
  split; intros model kwargs self Hr.
  - apply pe_reachable_static in Hr. unfold static in Hr.
    injection Hr as Hc Hn _.
    assert (Hp : colors self !! "point"
                 = Some (default PyNone (kwargs !! "point_color"))).
    { rewrite Hc. rewrite lookup_insert_ne by discriminate.
      apply lookup_insert_eq. }
    assert (Hl : colors self !! "line"
                 = Some (default LINE_COLOR (kwargs !! "line_color"))).
    { rewrite Hc. apply lookup_insert_eq. }
    split; [exact Hp |]. split; [exact Hl |]. split.
    + intros y y_pred k. unfold PredictionError.draw.
      rewrite (dict_get_Some _ _ _ Hp). simpl.
      unfold ax_scatter. destruct (length y =? length y_pred)%nat;
        [| discriminate].
      simpl. rewrite (dict_get_Some _ _ _ Hl). simpl.
      destruct y as [|a y]; [discriminate |]. simpl.
      destruct y_pred as [|b y_pred]; discriminate.
    + eexists. split; [reflexivity |]. simpl. rewrite Hn. reflexivity.
  - apply rp_reachable_static in Hr. unfold static in Hr.
    injection Hr as Hc Hn _.
    assert (Htr : colors self !! "train_point"
                  = Some (default (PyStr "b") (kwargs !! "train_color"))).
    { rewrite Hc. rewrite !lookup_insert_ne by discriminate.
      apply lookup_insert_eq. }
    assert (Hte : colors self !! "test_point"
                  = Some (default (PyStr "g") (kwargs !! "test_color"))).
    { rewrite Hc. rewrite lookup_insert_ne by discriminate.
      apply lookup_insert_eq. }
    assert (Hl : colors self !! "line"
                 = Some (default LINE_COLOR (kwargs !! "line_color"))).
    { rewrite Hc. apply lookup_insert_eq. }
    split; [exact Htr |]. split; [exact Hte |]. split; [exact Hl |]. split.
    + intros y_pred res train k. unfold ResidualsPlot.draw.
      destruct train.
      * rewrite (dict_get_Some _ _ _ Htr). simpl.
        unfold ax_scatter.
        destruct (length y_pred =? length res)%nat; discriminate.
      * rewrite (dict_get_Some _ _ _ Hte). simpl.
        unfold ax_scatter.
        destruct (length y_pred =? length res)%nat; discriminate.
    + rewrite (residuals_finalize_explicit self _ Hl).
      eexists. split; [reflexivity |]. simpl. rewrite Hn.
      split; reflexivity.
Qed.
End LifecycleProps.

Section QuickMethods.
Context {E : Type} `{Regressor E} `{Imports}.

(** What [residuals_plot] hands back.  On the axes it was given (the
    current axes if none) it has added, in this order, the training
    residuals, the held-out residuals and the zero line, in the colours of
    the keywords or their defaults; the axes carries the fixed legend,
    title and labels. *)
Theorem residuals_plot_output
  (model fitted : E) (X : Matrix) (y : Vector) (ax0 : option Axes)
  (kwargs : gmap string pyval)
  (X_train X_test : Matrix) (y_train y_test p_train p_test : Vector) :
  isregressor model = true ->
  train_test_split X y 0.2 = (X_train, X_test, y_train, y_test) ->
  est_fit model X_train y_train kwargs = Ok fitted ->
  est_predict fitted X_train = Ok p_train ->
  est_predict fitted X_test = Ok p_test ->
  length p_train = length y_train ->
  length p_test = length y_test ->
  let start := match ax0 with Some a => a | None => gca end in
  exists out,
    residuals_plot model X y ax0 kwargs = Ok out /\
    marks out
    = marks start
      ++ [Scatter p_train (zip_with Qminus p_train y_train)
            (default (PyStr "b") (kwargs !! "train_color")) (Some 40)
            (Some 0.5);
          Scatter p_test (zip_with Qminus p_test y_test)
            (default (PyStr "g") (kwargs !! "test_color")) (Some 40)
            (Some 1.0);
          HLine 0 (default LINE_COLOR (kwargs !! "line_color"))] /\
    texts out
    = (Some ("Residuals for " +:+ get_model_name model +:+ " Model"),
       Some "Predicted Value", Some "Residuals",
       Some (mkLegend ["Training Data"; "Test Data"] "best" true)).
Proof.
  intros Hr Hsplit Hfit Hptr Hpte Hltr Hlte start.
  unfold residuals_plot.
  rewrite (residuals_init_explicit model ax0 kwargs Hr).
  cbn [mbind result_bind]. rewrite Hsplit.
  set (v0 := mkVisualizer model _ _ _ _).
  set (ctrain := default (PyStr "b") (kwargs !! "train_color")).
  set (ctest := default (PyStr "g") (kwargs !! "test_color")).
  set (cline := default LINE_COLOR (kwargs !! "line_color")).
  assert (Htr : colors v0 !! "train_point" = Some ctrain).
  { simpl. rewrite !lookup_insert_ne by discriminate.
    apply lookup_insert_eq. }
  assert (Hte : colors v0 !! "test_point" = Some ctest).
  { simpl. rewrite lookup_insert_ne by discriminate.
    apply lookup_insert_eq. }
  assert (Hl : colors v0 !! "line" = Some cline).
  { simpl. apply lookup_insert_eq. }
  assert (Hf : ResidualsPlot.fit v0 X_train y_train kwargs
               = Ok (set_ax
                       (add_mark
                          (Scatter p_train (zip_with Qminus p_train y_train)
                             ctrain (Some 40) (Some 0.5))
                          (ax v0))
                       (set_estimator fitted v0))).
  { unfold ResidualsPlot.fit, RegressionScoreVisualizer.fit.
    change (estimator v0) with model. rewrite Hfit.
    cbn [mbind result_bind mret result_ret].
    exact (residuals_score_total (set_estimator fitted v0) X_train y_train
             p_train true ctrain Hptr Hltr Htr). }
  rewrite (bind_of_Ok _ _ _ Hf).
  match goal with |- context [ResidualsPlot.score ?v1 _ _ _] =>
    rewrite (bind_of_Ok _ _ _
               (residuals_score_total v1 X_test y_test p_test false ctest
                  Hpte Hlte Hte));
    set (v2 := set_ax _ v1) end.
  rewrite (bind_of_Ok _ _ _ (residuals_finalize_explicit v2 cline Hl)).
  eexists. split; [reflexivity |]. simpl.
  split; [rewrite <- !app_assoc; reflexivity |].
  reflexivity.
Qed.

(** What [prediction_error] hands back.  Fitting draws nothing, so the
    training part of the split leaves no mark: the axes gains one scatter
    of the held-out targets against their predictions and one best-fit
    line through them, ranges set from the held-out data, title and
    labels; the legend is untouched.  The estimator's own [score] is
    called and must return, though its value is dropped. *)
Theorem prediction_error_output
  (model fitted : E) (X : Matrix) (y : Vector) (ax0 : option Axes)
  (kwargs : gmap string pyval)
  (X_train X_test : Matrix) (y_train y_test p_test : Vector) (r : Q) :
  isregressor model = true ->
  train_test_split X y 0.2 = (X_train, X_test, y_train, y_test) ->
  est_fit model X_train y_train kwargs = Ok fitted ->
  est_predict fitted X_test = Ok p_test ->
  est_score fitted X_test y_test ∅ = Ok r ->
  y_test <> [] ->
  length y_test = length p_test ->
  let start := match ax0 with Some a => a | None => gca end in
  exists out lo hi plo phi,
    prediction_error model X y ax0 kwargs = Ok out /\
    marks out
    = marks start
      ++ [Scatter y_test p_test
            (default PyNone (kwargs !! "point_color")) None None;
          BestFit y_test p_test "linear" "--" 2
            (default LINE_COLOR (kwargs !! "line_color"))] /\
    is_min lo y_test /\ is_max hi y_test /\
    is_min plo p_test /\ is_max phi p_test /\
    limits out = (Some (lo - 1, hi + 1), Some (plo - 1, phi + 1)) /\
    texts out
    = (Some ("Prediction Error for " +:+ get_model_name model),
       Some "Measured", Some "Predicted", legend start).
Proof.
  intros Hr Hsplit Hfit Hpte Hscore Hne Hlen start.
  unfold prediction_error.
  rewrite (prediction_error_init_explicit model ax0 kwargs Hr).
  cbn [mbind result_bind]. rewrite Hsplit.
  set (v0 := mkVisualizer model _ _ _ _).
  set (cpoint := default PyNone (kwargs !! "point_color")).
  set (cline := default LINE_COLOR (kwargs !! "line_color")).
  assert (Hf : PredictionError.fit v0 X_train y_train kwargs
               = Ok (set_estimator fitted v0)).
  { unfold PredictionError.fit, RegressionScoreVisualizer.fit.
    change (estimator v0) with model. rewrite Hfit. reflexivity. }
  rewrite (bind_of_Ok _ _ _ Hf).
  set (v1 := set_estimator fitted v0).
  assert (Hp : colors v1 !! "point" = Some cpoint).
  { simpl. rewrite lookup_insert_ne by discriminate.
    apply lookup_insert_eq. }
  assert (Hl : colors v1 !! "line" = Some cline).
  { simpl. apply lookup_insert_eq. }
  destruct (prediction_error_draw_total v1 y_test p_test cpoint cline)
    as [v2 Hd]; auto.
  destruct (prediction_error_draw_Ok _ _ _ _ Hd)
    as (p & l & lo & hi & plo & phi & Hp' & Hl' & _ & Hlo & Hhi & Hplo
        & Hphi & Hv2).
  rewrite Hp in Hp'. rewrite Hl in Hl'.
  injection Hp' as <-. injection Hl' as <-.
  assert (Hs : PredictionError.score v1 X_test y_test ∅ = Ok (r, v2)).
  { unfold PredictionError.score, RegressionScoreVisualizer.predict.
    change (estimator v1) with fitted. rewrite Hpte.
    cbn [mbind result_bind]. rewrite Hd. cbn [mbind result_bind].
    rewrite (prediction_error_draw_estimator _ _ _ _ Hd).
    change (estimator v1) with fitted. rewrite Hscore. reflexivity. }
  rewrite (bind_of_Ok _ _ _ Hs).
  subst v2. eexists. exists lo, hi, plo, phi.
  split; [reflexivity |].
  apply np_min_Ok in Hlo. apply np_max_Ok in Hhi.
  apply np_min_Ok in Hplo. apply np_max_Ok in Hphi.
  simpl.
  split; [rewrite <- !app_assoc; reflexivity |].
  repeat (split; [assumption |]).
  split; reflexivity.
Qed.
End QuickMethods.

(** ** The further properties on the toy estimator *)

Lemma prediction_error_draw_returns_iff_witness :
  PredictionError.draw Toy.viz [1; 2] [1] = Raise ValueError /\
  PredictionError.score Toy.viz [[1]] [1; 2] ∅ = Raise ValueError.
Proof.
  destruct (prediction_error_draw_returns_iff Toy.viz [1; 2] [1] PyNone
              (PyStr "#111111")) as [_ Hbad].
  - vm_compute. reflexivity.
  - vm_compute. reflexivity.
  - destruct Hbad as [Hd Hs]; [right; discriminate |].
    split; [exact Hd |]. apply Hs. reflexivity.
Defined.


Lemma prediction_error_limits_follow_last_draw_witness :
  exists s1 s2 other',
    PredictionError.draw Toy.viz [1; 9] [2; 8] = Ok s1 /\
    PredictionError.draw s1 [4; 5] [4; 6] = Ok s2 /\
    PredictionError.draw Toy.viz [4; 5] [4; 6] = Ok other' /\
    xlim (ax s2) = xlim (ax other') /\ ylim (ax s2) = ylim (ax other').
Proof.
  destruct (PredictionError.draw Toy.viz [1; 9] [2; 8]) as [s1|e] eqn:H1;
    [| vm_compute in H1; discriminate H1].
  destruct (PredictionError.draw s1 [4; 5] [4; 6]) as [s2|e] eqn:H2.
  - destruct (PredictionError.draw Toy.viz [4; 5] [4; 6])
      as [o|e] eqn:H3; [| vm_compute in H3; discriminate H3].
    exists s1, s2, o. split; [reflexivity |]. split; [exact H2 |].
    split; [reflexivity |].
    exact (prediction_error_limits_follow_last_draw
             Toy.viz s1 s2 Toy.viz o [1; 9] [2; 8] [4; 5] [4; 6] H1 H2 H3).
  - vm_compute in H1. injection H1 as <-.
    vm_compute in H2. discriminate H2.
Defined.

Lemma prediction_error_draw_redraws_best_fit_witness :
  exists self',
    iterate (fun s => PredictionError.draw s [1; 2] [1; 3]) 3 Toy.viz
    = Ok self' /\
    length (List.filter is_bestfit (marks (ax self'))) = 3%nat.
Proof.
  destruct (prediction_error_draw_redraws_best_fit Toy.viz [1; 2] [1; 3]
              PyNone (PyStr "#111111") 3) as (self' & Hi & _ & Hn).
  - vm_compute. reflexivity.
  - vm_compute. reflexivity.
  - discriminate.
  - reflexivity.
  - exists self'. split; [exact Hi | exact Hn].
Defined.

Lemma residuals_score_returns_iff_witness :
  (exists self',
     ResidualsPlot.score Toy.viz [[5]; [6]] [4] false = Ok self' /\
     marks (ax self')
     = [Scatter [5; 6] [5 - 4; 6 - 4] (PyStr "g") (Some 40) (Some 1.0)]) /\
  ResidualsPlot.score Toy.viz [[5]; [6]] [4; 8; 9] false
  = Raise ValueError.
Proof.
  split.
  - destruct (residuals_score_returns_iff Toy.viz [[5]; [6]] [4] [5; 6]
                false (PyStr "g")) as (_ & Hone & _).
    + reflexivity.
    + vm_compute. reflexivity.
    + apply (Hone 4). reflexivity.
  - destruct (residuals_score_returns_iff Toy.viz [[5]; [6]] [4; 8; 9]
                [5; 6] false (PyStr "g")) as (_ & _ & Hbad).
    + reflexivity.
    + vm_compute. reflexivity.
    + apply Hbad; discriminate.
Defined.

Lemma residuals_sign_convention_witness :
  exists self' residuals color s alpha,
    ResidualsPlot.score Toy.viz [[5]; [6]] [4; 8] true = Ok self' /\
    marks (ax self') = [Scatter [5; 6] residuals color s alpha] /\
    forall r, residuals !! 1%nat = Some r -> r < 0.
Proof.
  destruct (ResidualsPlot.score Toy.viz [[5]; [6]] [4; 8] true)
    as [self'|e] eqn:Hs.
  - destruct (residuals_sign_convention Toy.viz self' [[5]; [6]] [4; 8]
                [5; 6] true) as (res & c & s & a & Hm & _ & Hsign).
    + reflexivity.
    + reflexivity.
    + exact Hs.
    + exists self', res, c, s, a. split; [reflexivity |].
      split; [exact Hm |].
      intros r Hr.
      destruct (Hsign 1%nat 6 8 r) as (_ & Hneg & _);
        [reflexivity | reflexivity | exact Hr |].
      apply Hneg. reflexivity.
  - vm_compute in Hs. discriminate Hs.
Defined.

Lemma marks_only_accumulate_witness :
  exists s1 s2,
    ResidualsPlot.score Toy.viz [[5]; [6]] [4; 8] false = Ok s1 /\
    marks (ax s1)
    = [Scatter [5; 6] [5 - 4; 6 - 8] (PyStr "g") (Some 40) (Some 1.0)] /\
    ResidualsPlot.finalize s1 = Ok s2 /\
    marks (ax s1) `prefix_of` marks (ax s2) /\
    marks (ax s2)
    = [Scatter [5; 6] [5 - 4; 6 - 8] (PyStr "g") (Some 40) (Some 1.0);
       HLine 0 (PyStr "#111111")].
Proof.
  destruct (ResidualsPlot.score Toy.viz [[5]; [6]] [4; 8] false)
    as [s1|e] eqn:Hs; [| vm_compute in Hs; discriminate Hs].
  vm_compute in Hs. injection Hs as <-.
  eexists. eexists. split; [reflexivity |]. split; [reflexivity |].
  split; [reflexivity |]. split; [| reflexivity].
  destruct (marks_only_accumulate (E:=Toy.model))
    as (_ & _ & _ & _ & _ & _ & _ & Hfin).
  eapply Hfin. reflexivity.
Defined.

Lemma drawing_and_decoration_are_separate_witness :
  exists s1 s2,
    ResidualsPlot.finalize Toy.viz = Ok s1 /\
    ResidualsPlot.score s1 [[5]; [6]] [4; 8] false = Ok s2 /\
    title (ax s1) = Some "Residuals for Toy Model" /\
    texts (ax s2) = texts (ax s1) /\
    estimator s2 = estimator s1.
Proof.
  destruct (ResidualsPlot.finalize Toy.viz) as [s1|e] eqn:Hf;
    [| vm_compute in Hf; discriminate Hf].
  vm_compute in Hf. injection Hf as Hs1.
  destruct (ResidualsPlot.score s1 [[5]; [6]] [4; 8] false)
    as [s2|e] eqn:Hs;
    [| rewrite <- Hs1 in Hs; vm_compute in Hs; discriminate Hs].
  exists s1, s2. split; [reflexivity |]. split; [exact Hs |].
  split; [rewrite <- Hs1; reflexivity |].
  destruct (drawing_and_decoration_are_separate (E:=Toy.model))
    as (_ & _ & _ & _ & _ & Hscore & _).
  apply (Hscore _ _ _ _ _ Hs).
Defined.

Lemma lifecycle_keeps_construction_attributes_witness :
  exists v0 v1 v2,
    ResidualsPlot.__init__ Toy.Fitted None
      (<["line_color" := PyStr "k"]> ∅) = Ok v0 /\
    ResidualsPlot.fit v0 [[5]; [6]] [4; 8] ∅ = Ok v1 /\
    ResidualsPlot.finalize v1 = Ok v2 /\
    title (ax v2) = Some "Residuals for Toy Model" /\
    colors v1 !! "line" = Some (PyStr "k").
Proof.
  destruct (ResidualsPlot.__init__ Toy.Fitted None
              (<["line_color" := PyStr "k"]> ∅)) as [v0|e] eqn:H0;
    [| vm_compute in H0; discriminate H0].
  destruct (ResidualsPlot.fit v0 [[5]; [6]] [4; 8] ∅) as [v1|e] eqn:H1.
  - destruct (lifecycle_keeps_construction_attributes (E:=Toy.model))
      as [_ Hrp].
    destruct (Hrp Toy.Fitted (<["line_color" := PyStr "k"]> ∅) v1)
      as (_ & _ & Hl & _ & v2 & Hf & Ht & _).
    { eapply rp_after_fit; [| exact H1].
      eapply rp_constructed. exact H0. }
    exists v0, v1, v2. split; [reflexivity |]. split; [exact H1 |].
    split; [exact Hf |]. split; [exact Ht |]. exact Hl.
  - vm_compute in H0. injection H0 as <-.
    vm_compute in H1. discriminate H1.
Defined.

Lemma residuals_plot_output_witness :
  exists out,
    residuals_plot Toy.Fitted [[1]; [2]; [3]] [1; 2; 4] None ∅ = Ok out /\
    marks out
    = [Scatter [1; 2] (zip_with Qminus [1; 2] [1; 2]) (PyStr "b")
         (Some 40) (Some 0.5);
       Scatter [3] (zip_with Qminus [3] [4]) (PyStr "g") (Some 40)
         (Some 1.0);
       HLine 0 (PyStr "#111111")].
Proof.
  destruct (residuals_plot_output Toy.Fitted Toy.Fitted [[1]; [2]; [3]]
              [1; 2; 4] None ∅ [[1]; [2]] [[3]] [1; 2] [4] [1; 2] [3])
    as (out & Ho & Hm & _); try reflexivity.
  exists out. split; [exact Ho | exact Hm].
Defined.

Lemma prediction_error_output_witness :
  exists out,
    prediction_error Toy.Fitted [[1]; [2]; [3]] [1; 2; 4] None ∅ = Ok out /\
    marks out
    = [Scatter [4] [3] PyNone None None;
       BestFit [4] [3] "linear" "--" 2 (PyStr "#111111")].
Proof.
  destruct (prediction_error_output Toy.Fitted Toy.Fitted [[1]; [2]; [3]]
              [1; 2; 4] None ∅ [[1]; [2]] [[3]] [1; 2] [4] [3] 0.9)
    as (out & lo & hi & plo & phi & Ho & Hm & _); try reflexivity.
  - discriminate.
  - exists out. split; [exact Ho | exact Hm].
Defined.
